(** * Cryo: iceball probability estimation (src/Cryo.py)

    A shallow embedding of [CryoLogic] -- the two probability models
    [GetDistances] / [GetDistances3], the scan-limit routine [getLimits]
    and the voxel scan of [run] -- together with the properties the
    specification states about them.

    Numbers.  The Python code computes with [numpy.float64].  The
    probability models are written once, over an interface [Float64] of
    the operations they use, and read in two ways:
      - [exact]    : the operations of the real numbers (the intended
                     mathematical meaning, no rounding, no overflow);
      - [binary64] : IEEE-754 double precision, Rocq's primitive floats,
                     with libm's [exp] supplied from outside.
    The scan and the limits are embedded over the exact reading. *)

From Stdlib Require Import Floats Uint63.
From Stdlib Require Import ZArith List Bool String Reals Lra Lia.
Import ListNotations.

(* ================================================================== *)
(** ** The arithmetic of [numpy.float64] as an interface *)

Declare Scope f64_scope.
Delimit Scope f64_scope with f64.

Class Float64 (T : Type) : Type := {
  (** the decimal literal [n/d], e.g. [4.1] is [lit 41 10] *)
  lit  : Z -> positive -> T;
  fadd : T -> T -> T;
  fsub : T -> T -> T;
  fmul : T -> T -> T;
  fdiv : T -> T -> T;
  fneg : T -> T;
  np_sqrt : T -> T;
  np_abs  : T -> T;
  np_exp  : T -> T;
  (** [fgtb a b] is the Python test [a > b] *)
  fgtb : T -> T -> bool
}.

Infix "+" := fadd : f64_scope.
Infix "-" := fsub : f64_scope.
Infix "*" := fmul : f64_scope.
Infix "/" := fdiv : f64_scope.
Notation "- x" := (fneg x) : f64_scope.
Infix ">?" := fgtb (at level 70, no associativity) : f64_scope.

(** A Python list of three coordinates, read with [v[0]], [v[1]], [v[2]]. *)
Record vec3 (T : Type) : Type := Vec3 { x0 : T; x1 : T; x2 : T }.

Arguments Vec3 {T} _ _ _.
Arguments x0 {T} _.
Arguments x1 {T} _.
Arguments x2 {T} _.

(** [exact]: the reading over the real numbers. *)
Definition Rgtb (a b : R) : bool := if Rlt_dec b a then true else false.

#[export] Instance exact : Float64 R := {|
  lit n d := (IZR n / IZR (Zpos d))%R;
  fadd := Rplus;
  fsub := Rminus;
  fmul := Rmult;
  fdiv := Rdiv;
  fneg := Ropp;
  np_sqrt := sqrt;
  np_abs := Rabs;
  np_exp := exp;
  fgtb := Rgtb
|}.

(** [binary64]: IEEE-754 doubles.  The integer [z] as a double (exact for
    the small integers of the literals). *)
Definition float_of_Z (z : Z) : float :=
  match z with
  | Z0 => PrimFloat.zero
  | Zpos _ => PrimFloat.of_uint63 (Uint63.of_Z z)
  | Zneg p => PrimFloat.opp (PrimFloat.of_uint63 (Uint63.of_Z (Zpos p)))
  end.

(** Division is correctly rounded, so [n/d] is the double nearest to the
    decimal literal, which is what Python's parser produces. *)
Definition binary64 (libm_exp : float -> float) : Float64 float := {|
  lit n d := PrimFloat.div (float_of_Z n) (float_of_Z (Zpos d));
  fadd := PrimFloat.add;
  fsub := PrimFloat.sub;
  fmul := PrimFloat.mul;
  fdiv := PrimFloat.div;
  fneg := PrimFloat.opp;
  np_sqrt := PrimFloat.sqrt;
  np_abs := PrimFloat.abs;
  np_exp := libm_exp;
  fgtb a b := PrimFloat.ltb b a
|}.

(** What is used of libm's [exp]: above the overflow threshold
    (ln(DBL_MAX) = 709.78...) the result is [+inf]; numpy only warns. *)
Definition exp_overflows (libm_exp : float -> float) : Prop :=
  forall x : float,
    PrimFloat.leb (float_of_Z 710) x = true -> libm_exp x = PrimFloat.infinity.

(** A value is in the closed unit interval (false for NaN). *)
Definition in_unit_interval64 (x : float) : bool :=
  PrimFloat.leb PrimFloat.zero x && PrimFloat.leb x PrimFloat.one.

Definition is_finite64 (x : float) : bool :=
  negb (PrimFloat.is_nan x) && negb (PrimFloat.is_infinity x).

Definition finite_vec3 (v : vec3 float) : bool :=
  is_finite64 (x0 v) && is_finite64 (x1 v) && is_finite64 (x2 v).

(* ================================================================== *)
(** ** The probability models *)

Section ProbabilityModel.

Context {T : Type} {F : Float64 T}.
Local Open Scope f64_scope.

(** [par[i]] on a list literal; the indices used are all in range. *)
Definition item (par : list T) (i : nat) : T := nth i par (lit 0 1).

(** [CryoLogic.GetDistances3] (lines 236-277). *)
Definition GetDistances3 (Pr1 Pr2 Pr3 p Uretra : vec3 T) : T :=
  let par := [lit 41 10; - lit 6 1000; - lit 38 10000; lit 8 100;
              - lit 11 10; lit 4 10; lit 4 10; lit 6 100] in
  let distanceProbes :=
    np_sqrt ((x0 Pr1 - x0 Pr2) * (x0 Pr1 - x0 Pr2)
             + (x1 Pr1 - x1 Pr2) * (x1 Pr1 - x1 Pr2)
             + (x2 Pr1 - x2 Pr2) * (x2 Pr1 - x2 Pr2)) in
  let offset := lit 3 1 in
  let distance1_0 := (- x0 Pr1 + x0 p) * (- x0 Pr1 + x0 p) in
  let distance1_1 := (- x1 Pr1 + x1 p) * (- x1 Pr1 + x1 p) in
  let distance1_2 := - x2 Pr1 + x2 p in
  let distance1a := (x2 Pr1 - offset - x2 p) * (x2 Pr1 - offset - x2 p) in
  let distance1b := (x2 Pr1 + offset - x2 p) * (x2 Pr1 + offset - x2 p) in
  let distance2_0 := (x0 Pr2 - x0 p) * (x0 Pr2 - x0 p) in
  let distance2_1 := (x1 Pr2 - x1 p) * (x1 Pr2 - x1 p) in
  let distance2_2 := - x2 Pr2 + x2 p in
  let distance2a := (x2 Pr2 - offset - x2 p) * (x2 Pr2 - offset - x2 p) in
  let distance2b := (x2 Pr2 + offset - x2 p) * (x2 Pr2 + offset - x2 p) in
  let distance3_0 := (x0 Uretra - x0 p) * (x0 Uretra - x0 p) in
  let distance3_1 := (x1 Uretra - x1 p) * (x1 Uretra - x1 p) in
  let distance3_2 := (x2 Uretra - x2 p) * (x2 Uretra - x2 p) in
  let distance4_0 := (x0 Pr3 - x0 p) * (x0 Pr3 - x0 p) in
  let distance4_1 := (x1 Pr3 - x1 p) * (x1 Pr3 - x1 p) in
  let distance4_2 := - x2 Pr3 + x2 p in
  let suma := np_sqrt (distance1_0 + distance1_1)
              + np_sqrt (distance2_0 + distance2_1)
              + np_sqrt (distance4_0 + distance4_1) in
  let suma := suma * suma / lit 4 1 in
  let suma2 := np_abs distance1_2 + np_abs distance2_2 + np_abs distance4_2 in
  let suma2 := suma2 * suma2 / lit 4 1 in
  let value := item par 0 + item par 1 * suma
               + item par 2 * suma2
               + item par 3 * np_sqrt (distance3_0 + distance3_1 + distance3_2) in
  np_exp value / (lit 1 1 + np_exp value).

(** [CryoLogic.GetDistances] (lines 279-314). *)
Definition GetDistances (Pr1 Pr2 p Uretra : vec3 T) : T :=
  let par := [lit 41 10; - lit 6 1000; - lit 38 10000; lit 18 100;
              - lit 11 10; lit 4 10; lit 4 10; lit 4 10] in
  let distanceProbes :=
    np_sqrt ((x0 Pr1 - x0 Pr2) * (x0 Pr1 - x0 Pr2)
             + (x1 Pr1 - x1 Pr2) * (x1 Pr1 - x1 Pr2)
             + (x2 Pr1 - x2 Pr2) * (x2 Pr1 - x2 Pr2)) in
  let distance1_0 := (- x0 Pr1 + x0 p) * (- x0 Pr1 + x0 p) in
  let distance1_1 := (- x1 Pr1 + x1 p) * (- x1 Pr1 + x1 p) in
  let distance1_2 := - x2 Pr1 + x2 p in
  let distance2_0 := (x0 Pr2 - x0 p) * (x0 Pr2 - x0 p) in
  let distance2_1 := (x1 Pr2 - x1 p) * (x1 Pr2 - x1 p) in
  let distance2_2 := - x2 Pr2 + x2 p in
  let distance3_0 := (x0 Uretra - x0 p) * (x0 Uretra - x0 p) in
  let distance3_1 := (x1 Uretra - x1 p) * (x1 Uretra - x1 p) in
  let distance3_2 := (x2 Uretra - x2 p) * (x2 Uretra - x2 p) in
  let suma := np_sqrt (distance1_0 + distance1_1)
              + np_sqrt (distance2_0 + distance2_1) in
  let suma := suma * suma / lit 1 1 in
  let suma2 := np_abs distance1_2 + np_abs distance2_2 in
  let suma2 := suma2 * suma2 / lit 1 1 in
  let value := item par 0 + item par 1 * suma
               + item par 2 * suma2
               + item par 3 * np_sqrt (distance3_0 + distance3_1 + distance3_2) in
  if np_sqrt (distance3_0 + distance3_1 + distance3_2) >? lit 5 1
  then np_exp value / (lit 1 1 + np_exp value)
  else lit 0 1.

End ProbabilityModel.

(* ================================================================== *)
(** ** The quantities the specification names, over the reals *)

Local Open Scope R_scope.

(** In-plane (x,y) Euclidean offset of [p] from [q]. *)
Definition plane_offset (p q : vec3 R) : R :=
  sqrt ((x0 p - x0 q) ^ 2 + (x1 p - x1 q) ^ 2).

(** Absolute out-of-plane (z) offset of [p] from [q]. *)
Definition z_offset (p q : vec3 R) : R := Rabs (x2 p - x2 q).

(** Full 3-D Euclidean distance. *)
Definition euclid3 (p q : vec3 R) : R :=
  sqrt ((x0 p - x0 q) ^ 2 + (x1 p - x1 q) ^ 2 + (x2 p - x2 q) ^ 2).

(** The logistic transform [exp(v)/(1+exp(v))]. *)
Definition logistic (v : R) : R := exp v / (1 + exp v).

(** The value [v] of the 2-probe model, in the specification's terms. *)
Definition value2 (Pr1 Pr2 p U : vec3 R) : R :=
  let planeSum := (plane_offset p Pr1 + plane_offset p Pr2) ^ 2 in
  let zSum := (z_offset p Pr1 + z_offset p Pr2) ^ 2 in
  let urethraDist := euclid3 p U in
  41 / 10 - 6 / 1000 * planeSum - 38 / 10000 * zSum + 18 / 100 * urethraDist.

(** The value [v] of the 3-probe model, in the specification's terms. *)
Definition value3 (Pr1 Pr2 Pr3 p U : vec3 R) : R :=
  let planeSum :=
    (plane_offset p Pr1 + plane_offset p Pr2 + plane_offset p Pr3) ^ 2 / 4 in
  let zSum := (z_offset p Pr1 + z_offset p Pr2 + z_offset p Pr3) ^ 2 / 4 in
  let urethraDist := euclid3 p U in
  41 / 10 - 6 / 1000 * planeSum - 38 / 10000 * zSum + 8 / 100 * urethraDist.


(** Inputs at which the binary64 reading is evaluated below: every probe
    and the sample point at the origin, the urethra point 10^6 units away. *)
Definition origin64 : vec3 float := Vec3 PrimFloat.zero PrimFloat.zero PrimFloat.zero.

Definition far64 : vec3 float :=
  Vec3 (float_of_Z 1000000) PrimFloat.zero PrimFloat.zero.

(* ================================================================== *)
(** ** Python values: exceptions, results, integers *)

Inductive exception : Type :=
| ValueError
| IndexError
| OverflowError
| AttributeError
| IOError
| MRMLNodeNotFoundException.

Inductive result (A : Type) : Type :=
| Ok (a : A)
| Raise (e : exception).

Arguments Ok {A} a.
Arguments Raise {A} e.

Definition bind {A B : Type} (m : result A) (k : A -> result B) : result B :=
  match m with
  | Ok a => k a
  | Raise e => Raise e
  end.

Notation "x <- m ;; k" := (bind m (fun x => k))
  (at level 61, m at next level, right associativity).
Notation "' p <- m ;; k" := (bind m (fun x => let p := x in k))
  (at level 61, p pattern, m at next level, right associativity).

(** A [for] loop whose body may raise: the first exception ends it. *)
Fixpoint foldM {A S : Type} (body : S -> A -> result S) (l : list A) (s : S)
  : result S :=
  match l with
  | [] => Ok s
  | a :: l' => s' <- body s a ;; foldM body l' s'
  end.

Fixpoint mapM {A B : Type} (f : A -> result B) (l : list A) : result (list B) :=
  match l with
  | [] => Ok []
  | a :: l' => b <- f a ;; bs <- mapM f l' ;; Ok (b :: bs)
  end.

(** [range(a, b)] *)
Definition py_range (a b : Z) : list Z :=
  map (fun n => (a + Z.of_nat n)%Z) (seq 0 (Z.to_nat (b - a))).

Arguments py_range : simpl never.

(** [int(x)] on a float: truncation toward zero. *)
Definition py_int (x : R) : Z := if Rle_dec 0 x then Zfloor x else Zceil x.

(** [round(x)]: the nearest integer, ties to the even one. *)
Definition py_round (x : R) : Z :=
  let f := Zfloor x in
  if Rlt_dec (x - IZR f) (1 / 2) then f
  else if Rlt_dec (1 / 2) (x - IZR f) then (f + 1)%Z
  else if Z.even f then f else (f + 1)%Z.

(** numpy's [int64]: the value kept after an overflowing scalar operation. *)
Definition wrap64 (z : Z) : Z := ((z + 2 ^ 63) mod 2 ^ 64 - 2 ^ 63)%Z.

(** A Python float stored into an [int64] array: truncated toward zero,
    [OverflowError] when the integer does not fit. *)
Definition int64_of_float (x : R) : result Z :=
  let z := py_int x in
  if ((- 2 ^ 63 <=? z) && (z <? 2 ^ 63))%Z then Ok z else Raise OverflowError.

(** [numpy.amin] / [numpy.amax] of a one-dimensional array; an empty array
    has no minimum ([ValueError]). *)
Definition amin (l : list Z) : result Z :=
  match l with
  | [] => Raise ValueError
  | z :: l' => Ok (fold_left Z.min l' z)
  end.

Definition amax (l : list Z) : result Z :=
  match l with
  | [] => Raise ValueError
  | z :: l' => Ok (fold_left Z.max l' z)
  end.

(** [l[i] = v] on a list whose index is known to be in range. *)
Fixpoint upd {A : Type} (i : nat) (v : A) (l : list A) : list A :=
  match l, i with
  | [], _ => []
  | _ :: l', O => v :: l'
  | a :: l', S i' => a :: upd i' v l'
  end.

(** The index [i] of an axis of length [n], as numpy reads it: negative
    indices count from the end, anything else is an [IndexError]. *)
Definition axis_index (n i : Z) : result Z :=
  if ((0 <=? i) && (i <? n))%Z then Ok i
  else if ((- n <=? i) && (i <? 0))%Z then Ok (i + n)%Z
  else Raise IndexError.

(** [l[i]] and [l[i] = v] on a one-dimensional array or a matrix row. *)
Definition getitem {A : Type} (l : list A) (i : Z) : result A :=
  n <- axis_index (Z.of_nat (List.length l)) i ;;
  match nth_error l (Z.to_nat n) with
  | Some a => Ok a
  | None => Raise IndexError
  end.

Definition setitem {A : Type} (l : list A) (i : Z) (v : A) : result (list A) :=
  n <- axis_index (Z.of_nat (List.length l)) i ;;
  Ok (upd (Z.to_nat n) v l).

(** A three-dimensional [numpy] array: its shape and its cells. *)
Record ndarray : Type := NdArray {
  shape : Z * Z * Z;
  cell : Z -> Z -> Z -> R
}.

(** [numpy.zeros([a, b, c])] *)
Definition zeros (a b c : Z) : ndarray :=
  {| shape := (a, b, c); cell := fun _ _ _ => 0 |}.

Definition same_index (a b c a' b' c' : Z) : bool :=
  ((a =? a') && (b =? b') && (c =? c'))%Z.

(** [arr[a, b, c] = v] *)
Definition setitem3 (arr : ndarray) (a b c : Z) (v : R) : result ndarray :=
  let '(na, nb, nc) := shape arr in
  a' <- axis_index na a ;;
  b' <- axis_index nb b ;;
  c' <- axis_index nc c ;;
  Ok {| shape := shape arr;
        cell := fun x y z =>
                  if same_index x y z a' b' c' then v else cell arr x y z |}.

(* ================================================================== *)
(** ** VTK: homogeneous 4x4 matrices and image buffers *)

Record vec4 : Type := Vec4 { h0 : R; h1 : R; h2 : R; h3 : R }.

Record vtkMatrix4x4 : Type := Matrix4x4 {
  row0 : vec4; row1 : vec4; row2 : vec4; row3 : vec4
}.

Definition dot4 (r v : vec4) : R :=
  h0 r * h0 v + h1 r * h1 v + h2 r * h2 v + h3 r * h3 v.

(** [m.MultiplyDoublePoint(v)]: the 4-tuple [m v]. *)
Definition MultiplyDoublePoint (m : vtkMatrix4x4) (v : vec4) : vec4 :=
  Vec4 (dot4 (row0 m) v) (dot4 (row1 m) v) (dot4 (row2 m) v) (dot4 (row3 m) v).

(** The first three entries of a 4-tuple, which is all the probability
    models read of [p]. *)
Definition xyz (v : vec4) : vec3 R := Vec3 (h0 v) (h1 v) (h2 v).

(** A [vtkImageData] with one scalar component: its dimensions in
    (x, y, z) order and its scalars. *)
Record vtkImageData : Type := ImageData {
  dimensions : Z * Z * Z;
  scalars : Z -> Z -> Z -> R
}.

Definition in_extent (img : vtkImageData) (x y z : Z) : bool :=
  let '(dx, dy, dz) := dimensions img in
  ((0 <=? x) && (x <? dx) && (0 <=? y) && (y <? dy) && (0 <=? z) && (z <? dz))%Z.

(** [img.SetScalarComponentFromFloat(x, y, z, comp, v)].  VTK looks the
    pixel up with [GetScalarPointer], which reports a pixel outside the
    extent as an error and yields no pointer: the buffer is then left as
    it is. *)
Definition SetScalarComponentFromFloat
    (img : vtkImageData) (x y z comp : Z) (v : R) : vtkImageData :=
  if (in_extent img x y z && (comp =? 0)%Z)%bool
  then {| dimensions := dimensions img;
          scalars := fun x' y' z' =>
                       if same_index x' y' z' x y z then v else scalars img x' y' z' |}
  else img.

(* ================================================================== *)
(** ** Constants of the module (lines 11-12) *)

Definition SLICE_N : Z := 40.

Definition THRESHOLD : R := lit (T := R) 8 10.

(* ================================================================== *)
(** ** [CryoLogic.getLimits] (lines 316-347) *)

(** Lines 318-328: every probe tip mapped to index space and stored into
    the integer arrays [limitX], [limitY], [limitZ].  [probes] is the
    matrix of probe tips, one row per probe, so [probes.size/3] is the
    number of rows. *)
Definition probe_indices (probes : list (vec3 R)) (rasToijkMatrix : vtkMatrix4x4)
  : result (list Z * list Z * list Z) :=
  idx <- mapM (fun pr =>
                 let pos_temp :=
                   MultiplyDoublePoint rasToijkMatrix (Vec4 (x0 pr) (x1 pr) (x2 pr) 1) in
                 a <- int64_of_float (h0 pos_temp) ;;
                 b <- int64_of_float (h1 pos_temp) ;;
                 c <- int64_of_float (h2 pos_temp) ;;
                 Ok (a, b, c)) probes ;;
  Ok (map (fun t => fst (fst t)) idx, map (fun t => snd (fst t)) idx,
      map (fun t => snd t) idx).

(** Lines 330-338: the box around the probes, with its margins and
    clamps. *)
Definition probe_box (limitX limitY limitZ : list Z) : result (list Z) :=
  xmin <- amin limitX ;; xmax <- amax limitX ;;
  ymin <- amin limitY ;; ymax <- amax limitY ;;
  zmin <- amin limitZ ;; zmax <- amax limitZ ;;
  let lim := [wrap64 (xmin - 30); wrap64 (xmax + 30);
              wrap64 (ymin - 30); wrap64 (ymax + 30);
              wrap64 (zmin - 5); wrap64 (zmax + 5)]%Z in
  let lim := if (nth 1 lim 0 >=? 190)%Z then upd 1 190%Z lim else lim in
  let lim := if (nth 3 lim 0 >=? 168)%Z then upd 3 168%Z lim else lim in
  let lim := if (nth 5 lim 0 >=? 19)%Z then upd 5 19%Z lim else lim in
  let lim := if (nth 4 lim 0 <? 1)%Z then upd 4 1%Z lim else lim in
  Ok lim.

(** Lines 340-347, "TEST FOR HEAT MAP": the six bounds are overwritten. *)
Definition heat_map_override (lim : list Z) : list Z :=
  let lim := upd 0 0%Z lim in
  let lim := upd 1 191%Z lim in
  let lim := upd 2 0%Z lim in
  let lim := upd 3 167%Z lim in
  let lim := upd 4 0%Z lim in
  let lim := upd 5 SLICE_N lim in
  lim.

Definition getLimits (probes : list (vec3 R)) (rasToijkMatrix : vtkMatrix4x4)
  : result (list Z) :=
  ' (limitX, limitY, limitZ) <- probe_indices probes rasToijkMatrix ;;
  lim <- probe_box limitX limitY limitZ ;;
  Ok (heat_map_override lim).

(** The least and the greatest entry of a non-empty list. *)
Definition list_min (l : list Z) : Z := fold_right Z.min (hd 0%Z l) l.

Definition list_max (l : list Z) : Z := fold_right Z.max (hd 0%Z l) l.

(** The box the specification describes for [computeLimits], on the index
    coordinates of the probes: axis-wise minimum and maximum, margin
    (30, 30, 5), upper bounds clamped to (190, 168, 19), lower slice bound
    at least 1. *)
Definition margin_box (limitX limitY limitZ : list Z) : list Z :=
  [ list_min limitX - 30; Z.min 190 (list_max limitX + 30);
    list_min limitY - 30; Z.min 168 (list_max limitY + 30);
    Z.max 1 (list_min limitZ - 5); Z.min 19 (list_max limitZ + 5) ]%Z.

(** The index coordinates of a probe tip, before they are stored as
    integers. *)
Definition index_point (rasToijkMatrix : vtkMatrix4x4) (pr : vec3 R) : vec4 :=
  MultiplyDoublePoint rasToijkMatrix (Vec4 (x0 pr) (x1 pr) (x2 pr) 1).

(** The index coordinates of every probe are far inside the [int64]
    range, so that neither the conversion nor the margins overflow. *)
Definition indices_fit (probes : list (vec3 R)) (rasToijkMatrix : vtkMatrix4x4)
  : Prop :=
  forall pr, In pr probes ->
    Rabs (h0 (index_point rasToijkMatrix pr)) <= IZR (2 ^ 62)
    /\ Rabs (h1 (index_point rasToijkMatrix pr)) <= IZR (2 ^ 62)
    /\ Rabs (h2 (index_point rasToijkMatrix pr)) <= IZR (2 ^ 62).

(* ================================================================== *)
(** ** numpy / scipy: [linspace] and [CubicSpline] *)

(** [numpy.linspace(start, stop, num)]: [num] samples, the last one set to
    [stop] itself. *)
Definition linspace (start stop : R) (num : nat) : list R :=
  let div := (num - 1)%nat in
  let delta := stop - start in
  let y := map INR (seq 0 num) in
  let y := if (0 <? div)%nat
           then map (fun t => t * (delta / INR div) + start) y
           else map (fun t => t * delta + start) y in
  if (1 <? num)%nat then upd (num - 1) stop y else y.

(** [numpy.any(numpy.diff(x) <= 0)] is false. *)
Fixpoint strictly_increasingb (x : list R) : bool :=
  match x with
  | a :: (b :: _) as x' => Rgtb b a && strictly_increasingb x'
  | _ => true
  end.

Definition strictly_increasing (x : list R) : Prop :=
  forall i : nat, (S i < List.length x)%nat -> nth i x 0 < nth (S i) x 0.

Definition strictly_decreasing (x : list R) : Prop :=
  forall i : nat, (S i < List.length x)%nat -> nth (S i) x 0 < nth i x 0.

Definition strictly_monotonic (x : list R) : Prop :=
  strictly_increasing x \/ strictly_decreasing x.

Section Run.

(** The interpolant scipy computes: [natural_spline x y] is the natural
    cubic spline through the points [(x_i, y_i)].  It belongs to scipy and
    is taken as given. *)
Variable natural_spline : list R -> list R -> R -> R.

(** [CubicSpline(x, y, bc_type='natural')]: scipy validates its input
    first and raises [ValueError] for fewer than 2 points, for arrays of
    different lengths and for an [x] that is not strictly increasing. *)
Definition CubicSpline (x y : list R) : result (R -> R) :=
  if (List.length x <? 2)%nat then Raise ValueError
  else if negb (List.length x =? List.length y)%nat then Raise ValueError
  else if negb (strictly_increasingb x) then Raise ValueError
  else Ok (natural_spline x y).

(** Lines 367-393 of [run]: the marker coordinates [x], [y], [z], the two
    splines [x(z)] and [y(z)], the resampled [z_new] and the [SLICE_N]
    points handed to the 'urethra' fiducial node. *)
Definition urethra_curve (markers : list (vec3 R)) : result (list (vec3 R)) :=
  let numFids := List.length markers in
  let x := map x0 markers in
  let y := map x1 markers in
  let z := map x2 markers in
  f <- CubicSpline z x ;;
  z_first <- getitem z 0 ;;
  z_last <- getitem z (Z.of_nat numFids - 1) ;;
  let z_new := linspace z_first z_last (Z.to_nat SLICE_N) in
  let x_new := map f z_new in
  f2 <- CubicSpline z y ;;
  let y_new := map f2 z_new in
  mapM (fun i =>
          xi <- getitem x_new i ;;
          yi <- getitem y_new i ;;
          zi <- getitem z_new i ;;
          Ok (Vec3 xi yi zi)) (py_range 0 SLICE_N).

(* ================================================================== *)
(** ** The MRML scene and the world [run] acts on *)

Inductive node : Type :=
| vtkMRMLMarkupsFiducialNode (name : string) (fiducials : list (vec3 R))
| vtkMRMLLabelMapVolumeNode (name : string) (array : ndarray) (ijkToRas : vtkMatrix4x4)
| vtkMRMLScalarVolumeNode (name : string) (array : ndarray) (ijkToRas : vtkMatrix4x4)
| vtkMRMLScalarVolumeDisplayNode (name : string) (colorNodeID : string).

Definition GetName (n : node) : string :=
  match n with
  | vtkMRMLMarkupsFiducialNode name _ => name
  | vtkMRMLLabelMapVolumeNode name _ _ => name
  | vtkMRMLScalarVolumeNode name _ _ => name
  | vtkMRMLScalarVolumeDisplayNode name _ => name
  end.

(** The scene (nodes in the order they were added), the directory of the
    debug table with the lines appended to it, and the content of freshly
    allocated image memory. *)
Record World : Type := MkWorld {
  mrmlScene : list node;
  cases_dir_exists : bool;
  result_table : list string;
  fresh_memory : Z -> Z -> Z -> R
}.

(** A computation of [run]: it may change the world and may raise; the
    changes made before an exception stay. *)
Definition M (A : Type) : Type := World -> World * result A.

Definition ret {A : Type} (a : A) : M A := fun w => (w, Ok a).

Definition bindM {A B : Type} (m : M A) (k : A -> M B) : M B :=
  fun w => match m w with
           | (w', Ok a) => k a w'
           | (w', Raise e) => (w', Raise e)
           end.

Definition lift {A : Type} (r : result A) : M A := fun w => (w, r).

Notation "x <~ m ;; k" := (bindM m (fun x => k))
  (at level 61, m at next level, right associativity).
Notation "m ;;; k" := (bindM m (fun _ => k))
  (at level 61, right associativity).

(** [slicer.util.getNode(name)]: of the nodes with that name the last one
    added; [MRMLNodeNotFoundException] when there is none. *)
Definition getNode (name : string) : M node :=
  fun w => (w, match find (fun n => String.eqb (GetName n) name) (rev (mrmlScene w)) with
               | Some n => Ok n
               | None => Raise MRMLNodeNotFoundException
               end).

(** [slicer.mrmlScene.AddNode(n)] *)
Definition AddNode (n : node) : M unit :=
  fun w => ({| mrmlScene := mrmlScene w ++ [n];
               cases_dir_exists := cases_dir_exists w;
               result_table := result_table w;
               fresh_memory := fresh_memory w |}, Ok tt).

(** The fiducial methods exist on fiducial nodes only. *)
Definition fiducials_of (n : node) : result (list (vec3 R)) :=
  match n with
  | vtkMRMLMarkupsFiducialNode _ fids => Ok fids
  | _ => Raise AttributeError
  end.

(** [fidList.GetNthFiducialPosition(i, ras)]: [ras] is left as it is when
    there is no [i]-th fiducial. *)
Definition GetNthFiducialPosition (fids : list (vec3 R)) (i : nat) (ras : vec3 R)
  : vec3 R :=
  nth i fids ras.

(** Lines 452-456: the debug table is opened for appending in a fixed
    directory and its header line is written. *)
Definition open_result_table : M unit :=
  fun w =>
    if cases_dir_exists w
    then ({| mrmlScene := mrmlScene w;
             cases_dir_exists := true;
             result_table :=
               result_table w ++
               ["value; PosX; PosY ; PosZ; pr1X; Pr1Y ; Pr1Z; pr2X; Pr2Y ; Pr2Z ; Urx ; Ury ; Urz "%string];
             fresh_memory := fresh_memory w |}, Ok tt)
    else (w, Raise IOError).

(** [vtk.vtkImageData()] with [SetDimensions] and [AllocateScalars]:
    allocation does not clear the buffer. *)
Definition AllocateScalars (dx dy dz : Z) : M vtkImageData :=
  fun w => (w, Ok {| dimensions := (dx, dy, dz); scalars := fresh_memory w |}).

(** A loop whose exception is caught outside: the state reached and the
    exception, if any. *)
Fixpoint for_each {A S : Type} (body : S -> A -> result S) (l : list A) (s : S)
  : S * option exception :=
  match l with
  | [] => (s, None)
  | a :: l' =>
      match body s a with
      | Ok s' => for_each body l' s'
      | Raise e => (s, Some e)
      end
  end.

(** Lines 433-444: the optional third probe.  Any exception in the [try]
    block -- no node 'probe3', a node without fiducials, a third row of
    the 2-row matrix [probe3] -- selects the 2-probe mode. *)
Definition load_probe3 (numFids4 : nat) (probe3 : list (vec3 R))
  : M (list (vec3 R) * Z) :=
  fun w =>
    match getNode "probe3" w with
    | (_, Raise _) => (w, Ok (probe3, 2%Z))
    | (_, Ok fidList4) =>
        let '(probe3', exn) :=
          for_each (fun probe3 i =>
                      fids <- fiducials_of fidList4 ;;
                      let ras := GetNthFiducialPosition fids i (Vec3 0 0 0) in
                      probe3 <- setitem probe3 (Z.of_nat i) ras ;;
                      row <- getitem probe3 (Z.of_nat i) ;;
                      setitem probe3 (Z.of_nat i)
                              (Vec3 (x0 row) (x1 row) (x2 row - 10)))
                   (seq 0 numFids4) probe3 in
        match exn with
        | None => (w, Ok (probe3', 3%Z))
        | Some _ => (w, Ok (probe3', 2%Z))
        end
    end.

(* ================================================================== *)
(** ** The voxel scan (lines 487-507 of [run]) *)

(** What the loop nest updates. *)
Record scan_state : Type := ScanState {
  s_imageData : vtkImageData;
  s_img2 : ndarray;
  s_img3 : ndarray;
  s_probs : ndarray;
  s_f : Z
}.

(** The probability evaluated at voxel [(i, j, k)] (lines 491-499). *)
Definition voxel_prob (IjkToRasMatrix : vtkMatrix4x4)
    (probe1 probe2 probe3 UretraMatrix : list (vec3 R)) (nofProbes : Z)
    (i j k : Z) : result R :=
  let p := MultiplyDoublePoint IjkToRasMatrix (Vec4 (IZR i) (IZR j) (IZR k) 1) in
  Pr1 <- getitem probe1 0 ;;
  Pr2 <- getitem probe2 0 ;;
  Pr3 <- getitem probe3 0 ;;
  Uretra <- getitem UretraMatrix k ;;
  if (nofProbes =? 3)%Z
  then Ok (GetDistances3 Pr1 Pr2 Pr3 (xyz p) Uretra)
  else Ok (GetDistances Pr1 Pr2 (xyz p) Uretra).

(** The body of the innermost loop (lines 491-506). *)
Definition scan_voxel (IjkToRasMatrix : vtkMatrix4x4)
    (probe1 probe2 probe3 UretraMatrix : list (vec3 R)) (nofProbes : Z)
    (st : scan_state) (ijk : Z * Z * Z) : result scan_state :=
  let '(i, j, k) := ijk in
  prob <- voxel_prob IjkToRasMatrix probe1 probe2 probe3 UretraMatrix nofProbes i j k ;;
  let imageData :=
    SetScalarComponentFromFloat (s_imageData st) k j i 0 (IZR (py_int (10 * prob))) in
  img2 <- setitem3 (s_img2 st) k j i (10 * prob) ;;
  probs <- setitem3 (s_probs st) (s_f st) 0 0 prob ;;
  let f := (s_f st + 1)%Z in
  img3 <- (if Rgtb prob THRESHOLD then setitem3 (s_img3 st) k j i 1 else Ok (s_img3 st)) ;;
  Ok {| s_imageData := imageData; s_img2 := img2; s_img3 := img3;
        s_probs := probs; s_f := f |}.

(** The three nested [for] loops over [range(lim[0], lim[1])],
    [range(lim[2], lim[3])] and [range(lim[4], lim[5])]. *)
Definition scan (IjkToRasMatrix : vtkMatrix4x4)
    (probe1 probe2 probe3 UretraMatrix : list (vec3 R)) (nofProbes : Z)
    (lim : list Z) (st : scan_state) : result scan_state :=
  foldM (fun st i =>
    foldM (fun st j =>
      foldM (fun st k =>
               scan_voxel IjkToRasMatrix probe1 probe2 probe3 UretraMatrix nofProbes
                          st (i, j, k))
            (py_range (nth 4 lim 0%Z) (nth 5 lim 0%Z)) st)
          (py_range (nth 2 lim 0%Z) (nth 3 lim 0%Z)) st)
        (py_range (nth 0 lim 0%Z) (nth 1 lim 0%Z)) st.

(** The voxels the loop nest visits, in order. *)
Definition scanned_voxels (lim : list Z) : list (Z * Z * Z) :=
  flat_map (fun i =>
    flat_map (fun j =>
      map (fun k => (i, j, k)) (py_range (nth 4 lim 0%Z) (nth 5 lim 0%Z)))
      (py_range (nth 2 lim 0%Z) (nth 3 lim 0%Z)))
    (py_range (nth 0 lim 0%Z) (nth 1 lim 0%Z)).

Arguments scanned_voxels : simpl never.

(* ================================================================== *)
(** ** [CryoLogic.run] (lines 349-537) *)

(** A [numpy.matrix] of [n] rows of three zeros. *)
Definition zero_rows (n : nat) : list (vec3 R) := repeat (Vec3 0 0 0) n.

(** The volume node passed to [run]. *)
Record inputVolumeNode : Type := InputVolume {
  IJKToRASMatrix : vtkMatrix4x4;
  RASToIJKMatrix : vtkMatrix4x4;
  voxels : ndarray
}.

(** Lines 398-404: the rows of [UretraMatrix] filled from a fiducial list. *)
Definition fill_rows (UretraMatrix fids : list (vec3 R)) : result (list (vec3 R)) :=
  foldM (fun m i =>
           let ras := GetNthFiducialPosition fids i (Vec3 0 0 0) in
           setitem m (Z.of_nat i) ras)
        (seq 0 (List.length fids)) UretraMatrix.

Definition run (inputVolume : inputVolumeNode) (imageThreshold : R)
    (enableScreenshots : Z) : M bool :=
  let UretraMatrix := zero_rows 56 in
  let probe1 := zero_rows 2 in
  let probe2 := zero_rows 2 in
  let probe3 := zero_rows 2 in
  (* lines 365-376 *)
  fidList <~ getNode "urethra_points" ;;
  markers <~ lift (fiducials_of fidList) ;;
  (* lines 379-395 *)
  curve <~ lift (urethra_curve markers) ;;
  AddNode (vtkMRMLMarkupsFiducialNode "urethra" curve) ;;;
  (* lines 398-404 *)
  fidList <~ getNode "urethra" ;;
  fids <~ lift (fiducials_of fidList) ;;
  UretraMatrix <~ lift (fill_rows UretraMatrix fids) ;;
  (* lines 407-413 *)
  fidList2 <~ getNode "IntraOpTargets" ;;
  targets <~ lift (fiducials_of fidList2) ;;
  let ras := Vec3 0 0 0 in
  let ras := GetNthFiducialPosition targets 0 ras in
  probe1 <~ lift (setitem probe1 0 ras) ;;
  let ras := GetNthFiducialPosition targets 1 ras in
  probe2 <~ lift (setitem probe2 0 ras) ;;
  (* lines 433-447 *)
  p3 <~ load_probe3 (List.length targets) probe3 ;;
  let probe3 := fst p3 in
  let nofProbes := snd p3 in
  r1 <~ lift (getitem probe1 0) ;;
  r2 <~ lift (getitem probe2 0) ;;
  let probes := [r1; r2] in
  (* lines 452-456 *)
  open_result_table ;;;
  (* lines 458-485 *)
  let IjkToRasMatrix := IJKToRASMatrix inputVolume in
  let voxelArray := voxels inputVolume in
  let nOfSlices := SLICE_N in
  imageData <~ AllocateScalars 192 168 nOfSlices ;;
  let img3 := zeros nOfSlices 168 192 in
  let img4 := zeros nOfSlices 168 192 in
  let img2 := zeros nOfSlices 168 192 in
  let probs := zeros 7000000 1 1 in
  let rasToijkMatrix := RASToIJKMatrix inputVolume in
  lim <~ lift (getLimits probes rasToijkMatrix) ;;
  imageData <~ AllocateScalars 192 168 nOfSlices ;;
  (* lines 487-507 *)
  st <~ lift (scan IjkToRasMatrix probe1 probe2 probe3 UretraMatrix nofProbes lim
                   {| s_imageData := imageData; s_img2 := img2; s_img3 := img3;
                      s_probs := probs; s_f := 0 |}) ;;
  (* lines 510-537 *)
  let volumeNode := vtkMRMLLabelMapVolumeNode "" (s_img3 st) IjkToRasMatrix in
  let volumeNode2 :=
    vtkMRMLLabelMapVolumeNode "predictedIceball" (s_img2 st) IjkToRasMatrix in
  AddNode volumeNode2 ;;;
  let volumeNodeImage := vtkMRMLScalarVolumeNode "" (s_img2 st) IjkToRasMatrix in
  AddNode volumeNodeImage ;;;
  AddNode volumeNode ;;;
  AddNode (vtkMRMLScalarVolumeDisplayNode "" "vtkMRMLColorTableNodeRainbow") ;;;
  ret true.

End Run.

(* ================================================================== *)
(** ** Names used in the statements *)

(** The bounds [getLimits] ends with. *)
Definition full_extent : list Z := [0; 191; 0; 167; 0; SLICE_N]%Z.

(** The probability of voxel [(i, j, k)] when every index of
    [voxel_prob] is in range. *)
Definition prob_at (IjkToRasMatrix : vtkMatrix4x4)
    (probe1 probe2 probe3 UretraMatrix : list (vec3 R)) (nofProbes : Z)
    (i j k : Z) : R :=
  let p := MultiplyDoublePoint IjkToRasMatrix (Vec4 (IZR i) (IZR j) (IZR k) 1) in
  let Pr1 := nth 0 probe1 (Vec3 0 0 0) in
  let Pr2 := nth 0 probe2 (Vec3 0 0 0) in
  let Pr3 := nth 0 probe3 (Vec3 0 0 0) in
  let Uretra := nth (Z.to_nat k) UretraMatrix (Vec3 0 0 0) in
  if (nofProbes =? 3)%Z
  then GetDistances3 Pr1 Pr2 Pr3 (xyz p) Uretra
  else GetDistances Pr1 Pr2 (xyz p) Uretra.

(** The state the scan of [run] starts from. *)
Definition initial_state (image : vtkImageData) : scan_state :=
  {| s_imageData := image;
     s_img2 := zeros SLICE_N 168 192;
     s_img3 := zeros SLICE_N 168 192;
     s_probs := zeros 7000000 1 1;
     s_f := 0 |}.

(** Voxel [(i, j, k)] lies in the grid of 192 x 168 x [SLICE_N] voxels. *)
Definition voxel_in_grid (ijk : Z * Z * Z) : Prop :=
  let '(i, j, k) := ijk in
  (0 <= i < 192 /\ 0 <= j < 168 /\ 0 <= k < SLICE_N)%Z.

(** The arrays of the state have the shapes [run] declares. *)
Definition declared_shapes (st : scan_state) : Prop :=
  dimensions (s_imageData st) = (192, 168, SLICE_N)%Z
  /\ shape (s_img2 st) = (SLICE_N, 168, 192)%Z
  /\ shape (s_img3 st) = (SLICE_N, 168, 192)%Z
  /\ shape (s_probs st) = (7000000, 1, 1)%Z.

(* ================================================================== *)
(** ** A concrete scan, used to evaluate the statements *)

(** The identity transform: voxel [(i, j, k)] is the point [(i, j, k)]. *)
Definition identity4 : vtkMatrix4x4 :=
  {| row0 := Vec4 1 0 0 0; row1 := Vec4 0 1 0 0;
     row2 := Vec4 0 0 1 0; row3 := Vec4 0 0 0 1 |}.

(** Both probe tips at the origin (the matrices [probe1], [probe2],
    [probe3] as [run] creates them). *)
Definition probes_at_origin : list (vec3 R) := zero_rows 2.

(** A urethra 100 units away from the origin on every slice. *)
Definition urethra_far : list (vec3 R) := repeat (Vec3 100 0 0) 56.

(** A cleared image buffer of the dimensions [run] sets. *)
Definition blank_image : vtkImageData :=
  {| dimensions := (192, 168, SLICE_N)%Z; scalars := fun _ _ _ => 0 |}.

(** Two probe tips whose index coordinates, under the identity transform,
    are (100, 100, 10) and (110, 90, 12). *)
Definition probes_example : list (vec3 R) := [Vec3 100 100 10; Vec3 110 90 12].

(** For two points the natural cubic spline is the straight line through
    them. *)
Definition line_through (x y : list R) (t : R) : R :=
  nth 0 y 0 + (t - nth 0 x 0) * ((nth 1 y 0 - nth 0 y 0) / (nth 1 x 0 - nth 0 x 0)).

(** Two urethra markers, at z = 0 and z = 39. *)
Definition markers_example : list (vec3 R) := [Vec3 1 2 0; Vec3 3 4 39].

(** A scene whose 'urethra_points' list holds a single marker. *)
Definition world_one_marker : World :=
  {| mrmlScene := [vtkMRMLMarkupsFiducialNode "urethra_points" [Vec3 1 2 0]];
     cases_dir_exists := true;
     result_table := [];
     fresh_memory := fun _ _ _ => 0 |}.

(** A volume node with the identity geometry and cleared voxels. *)
Definition volume_example : inputVolumeNode :=
  {| IJKToRASMatrix := identity4; RASToIJKMatrix := identity4;
     voxels := zeros SLICE_N 168 192 |}.

(** A scene with two urethra markers and two probe tips. *)
Definition world_example : World :=
  {| mrmlScene := [vtkMRMLMarkupsFiducialNode "urethra_points" markers_example;
                   vtkMRMLMarkupsFiducialNode "IntraOpTargets" probes_example];
     cases_dir_exists := true;
     result_table := [];
     fresh_memory := fun _ _ _ => 0 |}.

(** A volume node with the same geometry as [volume_example] and other
    voxel intensities. *)
Definition volume_example' : inputVolumeNode :=
  {| IJKToRASMatrix := identity4; RASToIJKMatrix := identity4;
     voxels := {| shape := (SLICE_N, 168, 192)%Z; cell := fun _ _ _ => 255 |} |}.

(* ================================================================== *)
(** ** The validation helpers of [CryoLogic] (lines 173-198) *)

(** A volume node as the two helpers see it: its ID (a node has none
    until it is added to a scene) and whether it holds image data.  The
    argument of either helper may also be [None]. *)
Record volumeNodeRef : Type := VolumeNodeRef {
  GetID : option string;
  GetImageData : option vtkImageData
}.

(** [CryoLogic.hasImageData] (lines 173-184) *)
Definition hasImageData (volumeNode : option volumeNodeRef) : bool :=
  match volumeNode with
  | None => false
  | Some v =>
      match GetImageData v with
      | None => false
      | Some _ => true
      end
  end.

(** [GetID() == GetID()] on two IDs, each a string or [None]. *)
Definition id_eqb (a b : option string) : bool :=
  match a, b with
  | None, None => true
  | Some s, Some t => String.eqb s t
  | _, _ => false
  end.

(** [CryoLogic.isValidInputOutputData] (lines 186-198) *)
Definition isValidInputOutputData (inputVolumeNode outputVolumeNode : option volumeNodeRef)
  : bool :=
  match inputVolumeNode with
  | None => false
  | Some i =>
      match outputVolumeNode with
      | None => false
      | Some o => if id_eqb (GetID i) (GetID o) then false else true
      end
  end.

(* ================================================================== *)
(** ** Further names used in the statements *)

(** The point [v] moved by [t]. *)
Definition translate (t v : vec3 R) : vec3 R :=
  Vec3 (x0 v + x0 t) (x1 v + x1 t) (x2 v + x2 t).

(** A fiducial position with its z lowered by 10 (line 441). *)
Definition lowered (v : vec3 R) : vec3 R := Vec3 (x0 v) (x1 v) (x2 v - 10).

(** No node of the scene has the given name. *)
Definition no_node_named (name : string) (w : World) : Prop :=
  forall n, In n (mrmlScene w) -> String.eqb (GetName n) name = false.

(** The position of voxel [(i, j, k)] in the order of the scan. *)
Definition scan_position (i j k : Z) : Z := ((i * 167 + j) * 40 + k)%Z.

(** The scene of [world_example] with the markers in the opposite order. *)
Definition world_reversed : World :=
  {| mrmlScene := [vtkMRMLMarkupsFiducialNode "urethra_points" (rev markers_example);
                   vtkMRMLMarkupsFiducialNode "IntraOpTargets" probes_example];
     cases_dir_exists := true;
     result_table := [];
     fresh_memory := fun _ _ _ => 0 |}.

(** [world_example] on a machine without the directory of the debug
    table. *)
Definition world_no_cases_dir : World :=
  {| mrmlScene := mrmlScene world_example;
     cases_dir_exists := false;
     result_table := [];
     fresh_memory := fun _ _ _ => 0 |}.

(** A scene with urethra markers and no probe list. *)
Definition world_no_targets : World :=
  {| mrmlScene := [vtkMRMLMarkupsFiducialNode "urethra_points" markers_example];
     cases_dir_exists := true;
     result_table := [];
     fresh_memory := fun _ _ _ => 0 |}.

(** [world_example] with a third probe. *)
Definition world_three_probes : World :=
  {| mrmlScene := mrmlScene world_example
                  ++ [vtkMRMLMarkupsFiducialNode "probe3" [Vec3 105 95 21]];
     cases_dir_exists := true;
     result_table := [];
     fresh_memory := fun _ _ _ => 0 |}.

(** An empty scene. *)
Definition world_empty : World :=
  {| mrmlScene := [];
     cases_dir_exists := true;
     result_table := [];
     fresh_memory := fun _ _ _ => 0 |}.

(* ================================================================== *)
(** * Properties *)

(** ** The probability models over the exact reading *)

Section ExactModel.

Local Open Scope R_scope.

Lemma logistic_open_unit (v : R) : 0 < logistic v < 1.
Proof.
  unfold logistic.
  pose proof (exp_pos v) as He.
  assert (Hd : 0 < 1 + exp v) by lra.
  split.
  - apply Rdiv_lt_0_compat; assumption.
  - apply (Rmult_lt_reg_r (1 + exp v)); [assumption|].
    unfold Rdiv. rewrite Rmult_assoc, Rinv_l by lra. lra.
Qed.

Lemma Rgtb_true (a b : R) : Rgtb a b = true <-> b < a.
Proof.
  unfold Rgtb. destruct (Rlt_dec b a); split; intros; auto; discriminate.
Qed.

Lemma Rgtb_false (a b : R) : Rgtb a b = false <-> a <= b.
Proof.
  unfold Rgtb. destruct (Rlt_dec b a); split; intros; auto; try discriminate; lra.
Qed.

(** The squared offsets as the code writes them are the squares the
    specification names. *)
Lemma plane_offset_code (p q : vec3 R) :
  sqrt ((- x0 q + x0 p) * (- x0 q + x0 p) + (- x1 q + x1 p) * (- x1 q + x1 p))
  = plane_offset p q.
Proof. unfold plane_offset. f_equal. ring. Qed.

Lemma plane_offset_code' (p q : vec3 R) :
  sqrt ((x0 q - x0 p) * (x0 q - x0 p) + (x1 q - x1 p) * (x1 q - x1 p))
  = plane_offset p q.
Proof. unfold plane_offset. f_equal. ring. Qed.

Lemma z_offset_code (p q : vec3 R) : Rabs (- x2 q + x2 p) = z_offset p q.
Proof. unfold z_offset. f_equal. ring. Qed.

Lemma euclid3_code (p q : vec3 R) :
  sqrt ((x0 q - x0 p) * (x0 q - x0 p) + (x1 q - x1 p) * (x1 q - x1 p)
        + (x2 q - x2 p) * (x2 q - x2 p))
  = euclid3 p q.
Proof. unfold euclid3. f_equal. ring. Qed.

Lemma GetDistances_exact (Pr1 Pr2 p U : vec3 R) :
  GetDistances Pr1 Pr2 p U
  = if Rgtb (euclid3 p U) 5 then logistic (value2 Pr1 Pr2 p U) else 0.
Proof.
  unfold GetDistances, item; cbn -[pow]. unfold logistic, value2.
  rewrite !plane_offset_code, !plane_offset_code', !z_offset_code, !euclid3_code.
  replace (5 / 1) with 5 by field.
  destruct (Rgtb (euclid3 p U) 5); [|field].
  set (a := plane_offset p Pr1 + plane_offset p Pr2).
  set (b := z_offset p Pr1 + z_offset p Pr2).
  set (d := euclid3 p U).
  match goal with |- exp ?v / _ = exp ?w / _ => replace v with w by (cbn [pow]; field) end.
  f_equal. f_equal. field.
Qed.

Lemma GetDistances3_exact (Pr1 Pr2 Pr3 p U : vec3 R) :
  GetDistances3 Pr1 Pr2 Pr3 p U = logistic (value3 Pr1 Pr2 Pr3 p U).
Proof.
  unfold GetDistances3, item; cbn -[pow]. unfold logistic, value3.
  rewrite !plane_offset_code, !plane_offset_code', !z_offset_code, !euclid3_code.
  set (a := plane_offset p Pr1 + plane_offset p Pr2 + plane_offset p Pr3).
  set (b := z_offset p Pr1 + z_offset p Pr2 + z_offset p Pr3).
  set (d := euclid3 p U).
  match goal with |- exp ?v / _ = exp ?w / _ => replace v with w by (cbn [pow]; field) end.
  f_equal. f_equal. field.
Qed.

(** C1.  The 2-probe model [GetDistances] computes
    [v = 4.1 - 0.006*planeSum - 0.0038*zSum + 0.18*urethraDist], where
    [planeSum] is the undivided square of the sum of the two in-plane
    offsets of [p] from the probes, [zSum] the undivided square of the sum
    of the two absolute z offsets and [urethraDist] the 3-D distance from
    [p] to [U]; it returns [exp v / (1 + exp v)] when [urethraDist > 5] and
    exactly [0] when [urethraDist <= 5], whatever the other inputs. *)
Theorem GetDistances_two_probe_model (Pr1 Pr2 p U : vec3 R) :
  let planeSum :=
    (sqrt ((x0 p - x0 Pr1) ^ 2 + (x1 p - x1 Pr1) ^ 2)
     + sqrt ((x0 p - x0 Pr2) ^ 2 + (x1 p - x1 Pr2) ^ 2)) ^ 2 in
  let zSum := (Rabs (x2 p - x2 Pr1) + Rabs (x2 p - x2 Pr2)) ^ 2 in
  let urethraDist :=
    sqrt ((x0 p - x0 U) ^ 2 + (x1 p - x1 U) ^ 2 + (x2 p - x2 U) ^ 2) in
  let v := 4.1 - 0.006 * planeSum - 0.0038 * zSum + 0.18 * urethraDist in
  (urethraDist > 5 -> GetDistances Pr1 Pr2 p U = exp v / (1 + exp v))
  /\ (urethraDist <= 5 -> GetDistances Pr1 Pr2 p U = 0).
Proof.
  intros planeSum zSum urethraDist v.
  assert (Hv : v = value2 Pr1 Pr2 p U).
  { unfold v, value2, planeSum, zSum, urethraDist, plane_offset, z_offset, euclid3.
    lra. }
  rewrite GetDistances_exact. fold (euclid3 p U) in urethraDist.
  split; intro Hd.
  - apply Rgtb_true in Hd. fold urethraDist. rewrite Hd, Hv. reflexivity.
  - apply Rgtb_false in Hd. fold urethraDist. rewrite Hd. reflexivity.
Qed.

(** C2.  The 3-probe model [GetDistances3] uses the coefficients
    [4.1, -0.006, -0.0038, 0.08], sums the in-plane offsets and the absolute
    z offsets over the three probes, squares each sum and divides it by 4,
    forms the same linear combination [v] and returns
    [exp v / (1 + exp v)] for every input: no urethra cutoff. *)
Theorem GetDistances3_three_probe_model (Pr1 Pr2 Pr3 p U : vec3 R) :
  let planeSum :=
    (sqrt ((x0 p - x0 Pr1) ^ 2 + (x1 p - x1 Pr1) ^ 2)
     + sqrt ((x0 p - x0 Pr2) ^ 2 + (x1 p - x1 Pr2) ^ 2)
     + sqrt ((x0 p - x0 Pr3) ^ 2 + (x1 p - x1 Pr3) ^ 2)) ^ 2 / 4 in
  let zSum :=
    (Rabs (x2 p - x2 Pr1) + Rabs (x2 p - x2 Pr2) + Rabs (x2 p - x2 Pr3)) ^ 2 / 4 in
  let urethraDist :=
    sqrt ((x0 p - x0 U) ^ 2 + (x1 p - x1 U) ^ 2 + (x2 p - x2 U) ^ 2) in
  let v := 4.1 - 0.006 * planeSum - 0.0038 * zSum + 0.08 * urethraDist in
  GetDistances3 Pr1 Pr2 Pr3 p U = exp v / (1 + exp v).
Proof.
  intros planeSum zSum urethraDist v.
  assert (Hv : v = value3 Pr1 Pr2 Pr3 p U).
  { unfold v, value3, planeSum, zSum, urethraDist, plane_offset, z_offset, euclid3.
    lra. }
  rewrite GetDistances3_exact, Hv. reflexivity.
Qed.


End ExactModel.

(** ** The probability models over binary64 *)

Section Binary64Model.

Variable libm_exp : float -> float.
Hypothesis libm_exp_overflows : exp_overflows libm_exp.

Lemma GetDistances3_far64 :
  GetDistances3 (F := binary64 libm_exp) origin64 origin64 origin64 origin64 far64
  = PrimFloat.nan.
Proof.
  vm_compute.
  rewrite libm_exp_overflows by (vm_compute; reflexivity).
  vm_compute. reflexivity.
Qed.

Lemma GetDistances_far64 :
  GetDistances (F := binary64 libm_exp) origin64 origin64 origin64 far64
  = PrimFloat.nan.
Proof.
  vm_compute.
  rewrite libm_exp_overflows by (vm_compute; reflexivity).
  vm_compute. reflexivity.
Qed.

End Binary64Model.

(** ** The cutoff in either reading *)

Section AnyReading.

Context {T : Type} {F : Float64 T}.

(** Whatever the arithmetic: when the test [urethraDist > 5] fails, the
    2-probe model returns the literal 0. *)
Lemma GetDistances_cutoff (Pr1 Pr2 p U : vec3 T) :
  fgtb (np_sqrt (fadd (fadd (fmul (fsub (x0 U) (x0 p)) (fsub (x0 U) (x0 p)))
                            (fmul (fsub (x1 U) (x1 p)) (fsub (x1 U) (x1 p))))
                      (fmul (fsub (x2 U) (x2 p)) (fsub (x2 U) (x2 p)))))
       (lit 5 1) = false ->
  GetDistances Pr1 Pr2 p U = lit 0 1.
Proof. intro H. unfold GetDistances. cbv zeta. rewrite H. reflexivity. Qed.

End AnyReading.

(** An [exp] that overflows as libm's does exists, so the statements
    above are not vacuous. *)
Lemma exp_overflows_inhabited :
  exp_overflows (fun x => if PrimFloat.leb (float_of_Z 710) x
                          then PrimFloat.infinity else PrimFloat.one).
Proof. intros x Hx. rewrite Hx. reflexivity. Qed.


(* ================================================================== *)
(** ** Loops, ranges and arrays *)

Lemma foldM_app {A S : Type} (body : S -> A -> result S) (l1 l2 : list A) (s : S) :
  foldM body (l1 ++ l2) s = (s' <- foldM body l1 s ;; foldM body l2 s').
Proof.
  revert s. induction l1 as [|a l1 IH]; intro s; cbn; [reflexivity|].
  destruct (body s a); cbn; auto.
Qed.

Lemma foldM_map {A B S : Type} (body : S -> B -> result S) (g : A -> B) (l : list A) (s : S) :
  foldM body (map g l) s = foldM (fun s a => body s (g a)) l s.
Proof.
  revert s. induction l as [|a l IH]; intro s; cbn; [reflexivity|].
  destruct (body s (g a)); cbn; auto.
Qed.

Lemma foldM_flat_map {A B S : Type} (body : S -> B -> result S) (g : A -> list B)
      (l : list A) (s : S) :
  foldM body (flat_map g l) s = foldM (fun s a => foldM body (g a) s) l s.
Proof.
  revert s. induction l as [|a l IH]; intro s; [reflexivity|].
  cbn [flat_map]. rewrite foldM_app. cbn [foldM].
  destruct (foldM body (g a) s); cbn [bind]; auto.
Qed.

Lemma foldM_ext {A S : Type} (body body' : S -> A -> result S) (l : list A) (s : S) :
  (forall s a, body s a = body' s a) -> foldM body l s = foldM body' l s.
Proof.
  intro E. revert s. induction l as [|a l IH]; intro s; cbn; [reflexivity|].
  rewrite E. destruct (body' s a); cbn; auto.
Qed.

Lemma length_py_range (a b : Z) : List.length (py_range a b) = Z.to_nat (b - a).
Proof. unfold py_range. rewrite length_map, length_seq. reflexivity. Qed.

Lemma In_py_range (a b x : Z) : In x (py_range a b) <-> (a <= x < b)%Z.
Proof.
  unfold py_range. rewrite in_map_iff. split.
  - intros (n & <- & Hn). apply in_seq in Hn. lia.
  - intros Hx. exists (Z.to_nat (x - a)). split; [lia|]. apply in_seq. lia.
Qed.

Lemma NoDup_py_range (a b : Z) : NoDup (py_range a b).
Proof.
  unfold py_range. generalize (seq_NoDup (Z.to_nat (b - a)) 0).
  induction 1 as [|n l Hn Hl IH]; cbn; constructor; auto.
  rewrite in_map_iff. intros (m & E & Hm).
  assert (m = n) by lia. subst. contradiction.
Qed.

Lemma same_index_true (a b c a' b' c' : Z) :
  same_index a b c a' b' c' = true <-> a = a' /\ b = b' /\ c = c'.
Proof. unfold same_index. rewrite !andb_true_iff, !Z.eqb_eq. tauto. Qed.

Lemma same_index_refl (a b c : Z) : same_index a b c a b c = true.
Proof. apply same_index_true. auto. Qed.

Lemma same_index_false (a b c a' b' c' : Z) :
  same_index a b c a' b' c' = false <-> ~ (a = a' /\ b = b' /\ c = c').
Proof. rewrite <- same_index_true. destruct (same_index a b c a' b' c'); split; congruence. Qed.

Lemma axis_index_in_range (n i : Z) : (0 <= i < n)%Z -> axis_index n i = Ok i.
Proof.
  intro H. unfold axis_index.
  replace ((0 <=? i)%Z && (i <? n)%Z) with true; [reflexivity|].
  symmetry. apply andb_true_iff. split; [apply Z.leb_le | apply Z.ltb_lt]; lia.
Qed.

Lemma getitem_in_range {A : Type} (l : list A) (i : Z) (d : A) :
  (0 <= i < Z.of_nat (List.length l))%Z -> getitem l i = Ok (nth (Z.to_nat i) l d).
Proof.
  intro H. unfold getitem. rewrite axis_index_in_range by assumption. cbn.
  destruct (nth_error l (Z.to_nat i)) eqn:E.
  - f_equal. symmetry. apply nth_error_nth. assumption.
  - apply nth_error_None in E. lia.
Qed.

Lemma setitem_in_range {A : Type} (l : list A) (i : Z) (v : A) :
  (0 <= i < Z.of_nat (List.length l))%Z -> setitem l i v = Ok (upd (Z.to_nat i) v l).
Proof.
  intro H. unfold setitem. rewrite axis_index_in_range by assumption. reflexivity.
Qed.

Lemma length_upd {A : Type} (i : nat) (v : A) (l : list A) :
  List.length (upd i v l) = List.length l.
Proof.
  revert i. induction l as [|a l IH]; intros [|i]; cbn; auto.
Qed.

Lemma nth_upd {A : Type} (i j : nat) (v d : A) (l : list A) :
  (i < List.length l)%nat ->
  nth j (upd i v l) d = if Nat.eqb j i then v else nth j l d.
Proof.
  revert i j. induction l as [|a l IH]; intros i j Hi; cbn in Hi; [lia|].
  destruct i as [|i], j as [|j]; cbn; auto.
  apply IH. lia.
Qed.

Lemma setitem3_in_range (arr : ndarray) (na nb nc a b c : Z) (v : R) :
  shape arr = (na, nb, nc) ->
  (0 <= a < na)%Z -> (0 <= b < nb)%Z -> (0 <= c < nc)%Z ->
  setitem3 arr a b c v
  = Ok {| shape := (na, nb, nc);
          cell := fun x y z => if same_index x y z a b c then v else cell arr x y z |}.
Proof.
  intros Hs Ha Hb Hc. unfold setitem3. rewrite Hs.
  rewrite !axis_index_in_range by assumption. reflexivity.
Qed.

(* ================================================================== *)
(** ** The voxel scan *)

Lemma voxel_eq_dec (u v : Z * Z * Z) : {u = v} + {u <> v}.
Proof. repeat decide equality. Qed.

Section Scan.

Variable IjkToRasMatrix : vtkMatrix4x4.
Variables probe1 probe2 probe3 UretraMatrix : list (vec3 R).
Variable nofProbes : Z.

Hypothesis probe1_rows : (0 < List.length probe1)%nat.
Hypothesis probe2_rows : (0 < List.length probe2)%nat.
Hypothesis probe3_rows : (0 < List.length probe3)%nat.
Hypothesis urethra_rows : (SLICE_N <= Z.of_nat (List.length UretraMatrix))%Z.

Local Abbreviation step :=
  (scan_voxel IjkToRasMatrix probe1 probe2 probe3 UretraMatrix nofProbes).
Local Abbreviation prob :=
  (prob_at IjkToRasMatrix probe1 probe2 probe3 UretraMatrix nofProbes).

Lemma voxel_prob_in_range (i j k : Z) :
  (0 <= k < SLICE_N)%Z ->
  voxel_prob IjkToRasMatrix probe1 probe2 probe3 UretraMatrix nofProbes i j k
  = Ok (prob i j k).
Proof.
  intro Hk. unfold voxel_prob, prob_at.
  rewrite (getitem_in_range probe1 0 (Vec3 0 0 0)) by lia.
  rewrite (getitem_in_range probe2 0 (Vec3 0 0 0)) by lia.
  rewrite (getitem_in_range probe3 0 (Vec3 0 0 0)) by lia.
  rewrite (getitem_in_range UretraMatrix k (Vec3 0 0 0)) by lia.
  cbn [bind Z.to_nat]. destruct (nofProbes =? 3)%Z; reflexivity.
Qed.

(** One iteration, when the voxel is in the grid and the counter [f] in
    the range of [probs]. *)
Lemma scan_voxel_in_grid (st : scan_state) (i j k : Z) :
  declared_shapes st -> voxel_in_grid (i, j, k) -> (0 <= s_f st < 7000000)%Z ->
  exists st',
    step st (i, j, k) = Ok st'
    /\ declared_shapes st'
    /\ s_f st' = (s_f st + 1)%Z
    /\ s_imageData st'
       = SetScalarComponentFromFloat (s_imageData st) k j i 0
                                     (IZR (py_int (10 * prob i j k)))
    /\ (forall x y z,
          cell (s_img2 st') x y z
          = if same_index x y z k j i then 10 * prob i j k
            else cell (s_img2 st) x y z)
    /\ (forall x y z,
          cell (s_img3 st') x y z
          = if (same_index x y z k j i && Rgtb (prob i j k) THRESHOLD)%bool then 1
            else cell (s_img3 st) x y z).
Proof.
  intros (Hd & H2 & H3 & Hp) (Hi & Hj & Hk) Hf.
  unfold scan_voxel. rewrite voxel_prob_in_range by assumption. cbn [bind].
  rewrite (@setitem3_in_range _ _ _ _ k j i _ H2) by assumption. cbn [bind].
  rewrite (@setitem3_in_range _ _ _ _ (s_f st) 0 0 _ Hp) by lia. cbn [bind].
  destruct (Rgtb (prob i j k) THRESHOLD) eqn:Hgt.
  - rewrite (@setitem3_in_range _ _ _ _ k j i _ H3) by assumption. cbn [bind].
    eexists. split; [reflexivity|]. cbn.
    repeat split; auto.
    + unfold SetScalarComponentFromFloat.
      destruct (in_extent _ _ _ _ && _)%bool; cbn; assumption.
    + intros x y z. rewrite andb_true_r. reflexivity.
  - cbn [bind]. eexists. split; [reflexivity|]. cbn.
    repeat split; auto.
    + unfold SetScalarComponentFromFloat.
      destruct (in_extent _ _ _ _ && _)%bool; cbn; assumption.
    + intros x y z. rewrite andb_false_r. reflexivity.
Qed.

(** The loop over a list of voxels of the grid runs to its end: no index
    is out of range, and the counter has advanced by the number of voxels. *)
Lemma scan_list_completes (l : list (Z * Z * Z)) (st : scan_state) :
  declared_shapes st -> Forall voxel_in_grid l ->
  (0 <= s_f st)%Z -> (s_f st + Z.of_nat (List.length l) <= 7000000)%Z ->
  exists st',
    foldM step l st = Ok st'
    /\ declared_shapes st'
    /\ s_f st' = (s_f st + Z.of_nat (List.length l))%Z.
Proof.
  revert st. induction l as [|[[i j] k] l IH]; intros st Hs Hl Hf0 Hf.
  - exists st. cbn [foldM List.length].
    split; [reflexivity|]. split; [assumption|lia].
  - inversion Hl as [|? ? Hv Hl']; subst. cbn [List.length] in Hf.
    destruct (scan_voxel_in_grid st i j k Hs Hv) as (st1 & E1 & Hs1 & Hf1 & _);
      [lia|].
    destruct (IH st1 Hs1 Hl') as (st' & E' & Hs' & Hf'); [lia|lia|].
    exists st'. cbn [foldM]. rewrite E1. cbn [bind].
    split; [assumption|]. split; [assumption|]. cbn [List.length]. lia.
Qed.

(** What the arrays hold after the loop over a list of voxels of the
    grid: a cell of a listed voxel holds that voxel's value, the other
    cells are as before. *)
Lemma scan_list_cells (l : list (Z * Z * Z)) (st st' : scan_state) :
  declared_shapes st -> Forall voxel_in_grid l ->
  (0 <= s_f st)%Z -> (s_f st + Z.of_nat (List.length l) <= 7000000)%Z ->
  foldM step l st = Ok st' ->
  (forall i j k, In (i, j, k) l ->
     cell (s_img2 st') k j i = 10 * prob i j k
     /\ cell (s_img3 st') k j i
        = (if Rgtb (prob i j k) THRESHOLD then 1 else cell (s_img3 st) k j i)
     /\ (in_extent (s_imageData st) k j i = true ->
         scalars (s_imageData st') k j i = IZR (py_int (10 * prob i j k))))
  /\ (forall x y z, ~ In (z, y, x) l ->
        cell (s_img2 st') x y z = cell (s_img2 st) x y z
        /\ cell (s_img3 st') x y z = cell (s_img3 st) x y z
        /\ scalars (s_imageData st') x y z = scalars (s_imageData st) x y z)
  /\ (forall x y z, in_extent (s_imageData st) x y z = false ->
        scalars (s_imageData st') x y z = scalars (s_imageData st) x y z)
  /\ dimensions (s_imageData st') = dimensions (s_imageData st).
Proof.
  revert st. induction l as [|[[i0 j0] k0] l IH]; intros st Hs Hl Hf0 Hf E.
  - cbn in E. injection E as <-.
    split; [intros i j k []|]. split; [intros; auto|]. split; auto.
  - inversion Hl as [|? ? Hv Hl']; subst. cbn [List.length] in Hf.
    destruct (scan_voxel_in_grid st i0 j0 k0 Hs Hv)
      as (st1 & E1 & Hs1 & Hf1 & Himg & Hc2 & Hc3); [lia|].
    cbn [foldM] in E. rewrite E1 in E. cbn [bind] in E.
    destruct (IH st1 Hs1 Hl' ltac:(lia) ltac:(lia) E) as (Hin & Hout & Hext & Hdim).
    assert (Hdim1 : dimensions (s_imageData st1) = dimensions (s_imageData st)).
    { rewrite Himg. unfold SetScalarComponentFromFloat.
      destruct (in_extent _ _ _ _ && _)%bool; reflexivity. }
    assert (Hext1 : forall x y z,
               in_extent (s_imageData st1) x y z = in_extent (s_imageData st) x y z).
    { intros. unfold in_extent. rewrite Hdim1. reflexivity. }
    assert (Hsc1 : forall x y z,
               scalars (s_imageData st1) x y z
               = if (in_extent (s_imageData st) k0 j0 i0 && same_index x y z k0 j0 i0)%bool
                 then IZR (py_int (10 * prob i0 j0 k0))
                 else scalars (s_imageData st) x y z).
    { intros. rewrite Himg. unfold SetScalarComponentFromFloat.
      rewrite andb_true_r.
      destruct (in_extent (s_imageData st) k0 j0 i0); reflexivity. }
    split; [|split; [|split]].
    + intros i j k Hijk.
      destruct (in_dec voxel_eq_dec (i, j, k) l) as [Hl1|Hl1].
      * destruct (Hin i j k Hl1) as (A2 & A3 & Ai).
        split; [assumption|]. split.
        -- rewrite A3, Hc3.
           destruct (Rgtb (prob i j k) THRESHOLD) eqn:G; [reflexivity|].
           destruct (same_index k j i k0 j0 i0) eqn:Es; [|reflexivity].
           apply same_index_true in Es. destruct Es as (-> & -> & ->).
           rewrite G. reflexivity.
        -- intro X. apply Ai. rewrite Hext1. assumption.
      * destruct Hijk as [Hijk|Hijk]; [|contradiction].
        injection Hijk as -> -> ->.
        destruct (Hout k j i Hl1) as (B2 & B3 & Bi).
        rewrite B2, B3, Bi, Hc2, Hc3, Hsc1, same_index_refl.
        split; [reflexivity|]. split; [reflexivity|].
        intros ->. reflexivity.
    + intros x y z Hn.
      assert (Hn1 : ~ In (z, y, x) l) by (intro; apply Hn; right; assumption).
      assert (Hne : same_index x y z k0 j0 i0 = false).
      { apply same_index_false. intros (-> & -> & ->). apply Hn. left. reflexivity. }
      destruct (Hout x y z Hn1) as (B2 & B3 & Bi).
      rewrite B2, B3, Bi, Hc2, Hc3, Hsc1, Hne, andb_false_r. auto.
    + intros x y z Hx. rewrite Hext by (rewrite Hext1; assumption).
      rewrite Hsc1.
      destruct (same_index x y z k0 j0 i0) eqn:Es; [|rewrite andb_false_r; reflexivity].
      apply same_index_true in Es. destruct Es as (-> & -> & ->).
      rewrite Hx. reflexivity.
    + congruence.
Qed.

Lemma scan_as_loop (lim : list Z) (st : scan_state) :
  scan IjkToRasMatrix probe1 probe2 probe3 UretraMatrix nofProbes lim st
  = foldM step (scanned_voxels lim) st.
Proof.
  unfold scan, scanned_voxels.
  rewrite foldM_flat_map. apply foldM_ext. intros s i.
  rewrite foldM_flat_map. apply foldM_ext. intros s' j.
  rewrite foldM_map. reflexivity.
Qed.

End Scan.

Lemma In_scanned_voxels (lim : list Z) (i j k : Z) :
  In (i, j, k) (scanned_voxels lim)
  <-> (nth 0 lim 0 <= i < nth 1 lim 0
       /\ nth 2 lim 0 <= j < nth 3 lim 0
       /\ nth 4 lim 0 <= k < nth 5 lim 0)%Z.
Proof.
  unfold scanned_voxels. rewrite in_flat_map. split.
  - intros (i' & Hi & H). apply in_flat_map in H. destruct H as (j' & Hj & H).
    apply in_map_iff in H. destruct H as (k' & E & Hk).
    injection E as -> -> ->. rewrite In_py_range in Hi, Hj, Hk. auto.
  - intros (Hi & Hj & Hk). exists i. split; [apply In_py_range; assumption|].
    apply in_flat_map. exists j. split; [apply In_py_range; assumption|].
    apply in_map. apply In_py_range. assumption.
Qed.

Lemma length_scanned_voxels (lim : list Z) :
  List.length (scanned_voxels lim)
  = (Z.to_nat (nth 1 lim 0%Z - nth 0 lim 0%Z)
     * (Z.to_nat (nth 3 lim 0%Z - nth 2 lim 0%Z)
        * Z.to_nat (nth 5 lim 0%Z - nth 4 lim 0%Z)))%nat.
Proof.
  unfold scanned_voxels.
  rewrite (flat_map_constant_length
             (c := (Z.to_nat (nth 3 lim 0%Z - nth 2 lim 0%Z)
                    * Z.to_nat (nth 5 lim 0%Z - nth 4 lim 0%Z))%nat)).
  - rewrite length_py_range. reflexivity.
  - intros i _.
    rewrite (flat_map_constant_length (c := Z.to_nat (nth 5 lim 0%Z - nth 4 lim 0%Z))).
    + rewrite length_py_range. reflexivity.
    + intros j _. rewrite length_map, length_py_range. reflexivity.
Qed.

Lemma NoDup_flat_map {A B : Type} (g : A -> list B) (l : list A) :
  NoDup l -> (forall a, NoDup (g a)) ->
  (forall a a' b, In b (g a) -> In b (g a') -> a = a') ->
  NoDup (flat_map g l).
Proof.
  intros Hl Hg Hdisj. induction Hl as [|a l Ha Hl IH]; cbn [flat_map]; [constructor|].
  apply NoDup_app; [apply Hg|exact IH|].
  intros b H1 H2. apply in_flat_map in H2. destruct H2 as (a' & Ha' & H2).
  rewrite (Hdisj a a' b H1 H2) in Ha. contradiction.
Qed.

Lemma NoDup_scanned_voxels (lim : list Z) : NoDup (scanned_voxels lim).
Proof.
  unfold scanned_voxels. apply NoDup_flat_map.
  - apply NoDup_py_range.
  - intro i. apply NoDup_flat_map.
    + apply NoDup_py_range.
    + intro j. generalize (NoDup_py_range (nth 4 lim 0%Z) (nth 5 lim 0%Z)).
      induction 1 as [|k l Hk Hl IH]; cbn [map]; constructor; auto.
      rewrite in_map_iff. intros (k' & E & Hk'). injection E as ->. contradiction.
    + intros j j' [[a b] c] H1 H2.
      apply in_map_iff in H1. destruct H1 as (k & E & _).
      apply in_map_iff in H2. destruct H2 as (k' & E' & _). congruence.
  - intros i i' [[a b] c] H1 H2.
    apply in_flat_map in H1. destruct H1 as (j & _ & H1).
    apply in_map_iff in H1. destruct H1 as (k & E & _).
    apply in_flat_map in H2. destruct H2 as (j' & _ & H2).
    apply in_map_iff in H2. destruct H2 as (k' & E' & _). congruence.
Qed.

Lemma full_extent_in_grid : Forall voxel_in_grid (scanned_voxels full_extent).
Proof.
  apply Forall_forall. intros [[i j] k] H. apply In_scanned_voxels in H.
  cbn in H. unfold voxel_in_grid, SLICE_N in *. lia.
Qed.

Lemma length_full_extent :
  Z.of_nat (List.length (scanned_voxels full_extent)) = (191 * 167 * 40)%Z.
Proof. rewrite length_scanned_voxels. cbn [nth full_extent]. unfold SLICE_N. lia. Qed.

(* ================================================================== *)
(** ** The scan of the full extent *)

Section FullScan.

Variable IjkToRasMatrix : vtkMatrix4x4.
Variables probe1 probe2 probe3 UretraMatrix : list (vec3 R).
Variable nofProbes : Z.
Variable image : vtkImageData.

Hypothesis probe1_rows : (0 < List.length probe1)%nat.
Hypothesis probe2_rows : (0 < List.length probe2)%nat.
Hypothesis probe3_rows : (0 < List.length probe3)%nat.
Hypothesis urethra_rows : (SLICE_N <= Z.of_nat (List.length UretraMatrix))%Z.
Hypothesis image_dimensions : dimensions image = (192, 168, SLICE_N)%Z.

Local Abbreviation prob :=
  (prob_at IjkToRasMatrix probe1 probe2 probe3 UretraMatrix nofProbes).
Local Abbreviation full_scan :=
  (scan IjkToRasMatrix probe1 probe2 probe3 UretraMatrix nofProbes full_extent
        (initial_state image)).

Lemma initial_state_shapes : declared_shapes (initial_state image).
Proof. unfold declared_shapes. cbn. auto. Qed.

(** The scan of the full extent returns: none of its array accesses is
    out of range, and all 191 * 167 * 40 voxels have been counted. *)
Lemma full_scan_completes :
  exists st',
    full_scan = Ok st' /\ declared_shapes st' /\ s_f st' = (191 * 167 * 40)%Z.
Proof.
  destruct (scan_list_completes IjkToRasMatrix probe1 probe2 probe3 UretraMatrix
              nofProbes probe1_rows probe2_rows probe3_rows urethra_rows
              (scanned_voxels full_extent) (initial_state image))
    as (st' & E & Hs & Hf).
  - apply initial_state_shapes.
  - apply full_extent_in_grid.
  - cbn. lia.
  - rewrite length_full_extent. cbn. lia.
  - exists st'. rewrite scan_as_loop. split; [assumption|]. split; [assumption|].
    rewrite Hf, length_full_extent. cbn. lia.
Qed.

Lemma full_scan_cells (st' : scan_state) :
  full_scan = Ok st' ->
  (forall i j k, In (i, j, k) (scanned_voxels full_extent) ->
     cell (s_img2 st') k j i = 10 * prob i j k
     /\ cell (s_img3 st') k j i = (if Rgtb (prob i j k) THRESHOLD then 1 else 0)
     /\ (in_extent image k j i = true ->
         scalars (s_imageData st') k j i = IZR (py_int (10 * prob i j k))))
  /\ (forall x y z, ~ In (z, y, x) (scanned_voxels full_extent) ->
        cell (s_img2 st') x y z = 0 /\ cell (s_img3 st') x y z = 0
        /\ scalars (s_imageData st') x y z = scalars image x y z)
  /\ (forall x y z, in_extent image x y z = false ->
        scalars (s_imageData st') x y z = scalars image x y z)
  /\ dimensions (s_imageData st') = dimensions image.
Proof.
  intro E. rewrite scan_as_loop in E.
  apply (scan_list_cells IjkToRasMatrix probe1 probe2 probe3 UretraMatrix
           nofProbes probe1_rows probe2_rows probe3_rows urethra_rows) in E.
  - exact E.
  - apply initial_state_shapes.
  - apply full_extent_in_grid.
  - cbn. lia.
  - rewrite length_full_extent. cbn. lia.
Qed.


(** C8.  The scan never writes outside the declared shapes: it returns
    without an [IndexError], every index written lies in the
    [(SLICE_N, 168, 192)] arrays, the arrays keep their shapes, the image
    buffer is unchanged outside its extent, every slice index [k] used
    for the urethra lookup is below the resample count [SLICE_N] and finds
    its row, and afterwards every mask cell is exactly 0 or 1. *)
Theorem scan_stays_in_declared_shapes :
  exists st',
    full_scan = Ok st'
    /\ declared_shapes st'
    /\ (forall i j k, In (i, j, k) (scanned_voxels full_extent) ->
          (0 <= k < SLICE_N /\ 0 <= j < 168 /\ 0 <= i < 192)%Z
          /\ getitem UretraMatrix k
             = Ok (nth (Z.to_nat k) UretraMatrix (Vec3 0 0 0)))
    /\ (forall x y z, in_extent image x y z = false ->
          scalars (s_imageData st') x y z = scalars image x y z)
    /\ (forall x y z, cell (s_img3 st') x y z = 0 \/ cell (s_img3 st') x y z = 1).
Proof.
  destruct full_scan_completes as (st' & E & Hs & _).
  exists st'. split; [assumption|]. split; [assumption|].
  destruct (full_scan_cells st' E) as (Hin & Hout & Hext & _).
  split; [|split; [assumption|]].
  - intros i j k Hv. apply In_scanned_voxels in Hv. cbn in Hv. unfold SLICE_N in *.
    split; [lia|]. apply getitem_in_range. lia.
  - intros x y z.
    destruct (in_dec voxel_eq_dec (z, y, x) (scanned_voxels full_extent)) as [Hv|Hv].
    + destruct (Hin z y x Hv) as (_ & H3 & _). rewrite H3.
      destruct (Rgtb _ _); auto.
    + destruct (Hout x y z Hv) as (_ & H3 & _). auto.
Qed.

End FullScan.

(* ================================================================== *)
(** ** The concrete scan *)

Lemma Rgtb_true_intro (a b : R) : b < a -> Rgtb a b = true.
Proof. apply Rgtb_true. Qed.

Lemma concrete_voxel_prob :
  prob_at identity4 probes_at_origin probes_at_origin probes_at_origin
          urethra_far 2 0 0 0
  = logistic (221 / 10).
Proof.
  unfold prob_at. cbn [Z.eqb Z.to_nat nth probes_at_origin zero_rows repeat urethra_far].
  rewrite GetDistances_exact.
  assert (Hp : xyz (MultiplyDoublePoint identity4 (Vec4 0 0 0 1)) = Vec3 0 0 0).
  { unfold xyz, MultiplyDoublePoint, dot4. cbn. f_equal; ring. }
  rewrite Hp.
  assert (Hd : euclid3 (Vec3 0 0 0) (Vec3 100 0 0) = 100).
  { unfold euclid3. cbn [x0 x1 x2].
    replace ((0 - 100) ^ 2 + (0 - 0) ^ 2 + (0 - 0) ^ 2) with (100 * 100) by ring.
    apply sqrt_square. lra. }
  assert (Ho : plane_offset (Vec3 0 0 0) (Vec3 0 0 0) = 0).
  { unfold plane_offset. cbn [x0 x1 x2].
    replace ((0 - 0) ^ 2 + (0 - 0) ^ 2) with 0 by ring. apply sqrt_0. }
  assert (Hz : z_offset (Vec3 0 0 0) (Vec3 0 0 0) = 0).
  { unfold z_offset. cbn [x0 x1 x2]. replace (0 - 0) with 0 by ring. apply Rabs_R0. }
  rewrite Hd, (Rgtb_true_intro 100 5) by lra.
  apply (f_equal logistic). unfold value2. rewrite Hd, Ho, Hz. lra.
Qed.

Lemma logistic_near_one (v : R) : 19 <= v -> 95 / 100 < logistic v < 1.
Proof.
  intro Hv. split; [|apply logistic_open_unit].
  unfold logistic.
  assert (He : 1 + v < exp v) by (apply exp_ineq1; lra).
  apply (Rmult_lt_reg_r (1 + exp v)); [lra|].
  unfold Rdiv at 2. rewrite Rmult_assoc, Rinv_l by lra. lra.
Qed.

Lemma py_int_floor (x : R) (z : Z) : 0 <= x -> IZR z <= x < IZR z + 1 -> py_int x = z.
Proof.
  intros H0 Hz. unfold py_int. destruct (Rle_dec 0 x); [|contradiction].
  apply Zfloor_eq. assumption.
Qed.

Lemma py_round_up (x : R) (z : Z) :
  IZR z + 1 / 2 < x < IZR z + 1 -> py_round x = (z + 1)%Z.
Proof.
  intro Hx. unfold py_round.
  rewrite (Zfloor_eq z x) by lra.
  destruct (Rlt_dec (x - IZR z) (1 / 2)); [lra|].
  destruct (Rlt_dec (1 / 2) (x - IZR z)); [reflexivity|lra].
Qed.

Lemma concrete_probe_rows : (0 < List.length probes_at_origin)%nat.
Proof. cbn. lia. Qed.

Lemma concrete_urethra_rows : (SLICE_N <= Z.of_nat (List.length urethra_far))%Z.
Proof. unfold urethra_far, SLICE_N. rewrite repeat_length. lia. Qed.



(** The C8 statement at the concrete scan. *)
Lemma scan_stays_in_declared_shapes_witness :
  ((0 < List.length probes_at_origin)%nat
   /\ (SLICE_N <= Z.of_nat (List.length urethra_far))%Z
   /\ dimensions blank_image = (192, 168, SLICE_N)%Z)
  /\ exists st',
       scan identity4 probes_at_origin probes_at_origin probes_at_origin urethra_far 2
            full_extent (initial_state blank_image) = Ok st'
       /\ declared_shapes st'
       /\ (forall i j k, In (i, j, k) (scanned_voxels full_extent) ->
             (0 <= k < SLICE_N /\ 0 <= j < 168 /\ 0 <= i < 192)%Z
             /\ getitem urethra_far k
                = Ok (nth (Z.to_nat k) urethra_far (Vec3 0 0 0)))
       /\ (forall x y z, in_extent blank_image x y z = false ->
             scalars (s_imageData st') x y z = scalars blank_image x y z)
       /\ (forall x y z, cell (s_img3 st') x y z = 0 \/ cell (s_img3 st') x y z = 1).
Proof.
  split.
  - split; [cbn; lia|]. split; [|reflexivity].
    unfold urethra_far, SLICE_N. rewrite repeat_length. lia.
  - apply (scan_stays_in_declared_shapes identity4 probes_at_origin probes_at_origin
             probes_at_origin urethra_far 2 blank_image).
    + cbn; lia.
    + cbn; lia.
    + cbn; lia.
    + unfold urethra_far, SLICE_N. rewrite repeat_length. lia.
    + reflexivity.
Defined.

(* ================================================================== *)
(** ** [getLimits] *)

Lemma py_int_IZR (z : Z) : py_int (IZR z) = z.
Proof.
  unfold py_int. destruct (Rle_dec 0 (IZR z)).
  - apply ZfloorZ.
  - apply Zceil_eq. lra.
Qed.

Lemma py_int_bounded (x : R) (b : Z) :
  Rabs x <= IZR b -> (- b <= py_int x <= b)%Z.
Proof.
  intro H. unfold py_int. destruct (Rle_dec 0 x) as [Hx|Hx].
  - rewrite Rabs_right in H by lra.
    pose proof (Zfloor_le _ _ H) as H1. rewrite ZfloorZ in H1.
    pose proof (Zfloor_le _ _ Hx) as H2. rewrite (ZfloorZ 0) in H2. lia.
  - rewrite Rabs_left in H by lra.
    assert (H' : IZR (- b) <= x) by (rewrite opp_IZR; lra).
    pose proof (Zceil_le _ _ H') as H1.
    rewrite (Zceil_eq (- b) (IZR (- b))) in H1 by lra.
    assert (Hx' : x <= 0) by lra.
    pose proof (Zceil_le _ _ Hx') as H2.
    rewrite (Zceil_eq 0 0) in H2 by lra. lia.
Qed.

Lemma int64_of_float_fits (x : R) :
  Rabs x <= IZR (2 ^ 62) -> int64_of_float x = Ok (py_int x).
Proof.
  intro H. apply py_int_bounded in H. unfold int64_of_float.
  replace ((- 2 ^ 63 <=? py_int x)%Z && (py_int x <? 2 ^ 63)%Z) with true;
    [reflexivity|].
  symmetry. apply andb_true_iff. split; [apply Z.leb_le|apply Z.ltb_lt]; lia.
Qed.

Lemma wrap64_small (z : Z) : (- 2 ^ 63 <= z < 2 ^ 63)%Z -> wrap64 z = z.
Proof.
  intro H. unfold wrap64. rewrite Z.mod_small by lia. lia.
Qed.

Lemma mapM_all_ok {A B : Type} (f : A -> result B) (g : A -> B) (l : list A) :
  (forall a, In a l -> f a = Ok (g a)) -> mapM f l = Ok (map g l).
Proof.
  induction l as [|a l IH]; intro H; cbn [mapM map]; [reflexivity|].
  rewrite (H a) by (left; reflexivity). cbn [bind].
  rewrite IH by (intros; apply H; right; assumption). reflexivity.
Qed.

Lemma fold_min_le (z : Z) (l : list Z) : (fold_right Z.min z l <= z)%Z.
Proof. induction l as [|a l IH]; cbn; lia. Qed.

Lemma fold_max_ge (z : Z) (l : list Z) : (z <= fold_right Z.max z l)%Z.
Proof. induction l as [|a l IH]; cbn; lia. Qed.

Lemma amin_list_min (l : list Z) : l <> [] -> amin l = Ok (list_min l).
Proof.
  destruct l as [|z l]; [congruence|]. intros _. unfold amin, list_min. f_equal.
  rewrite fold_symmetric by (intros; lia). cbn [hd fold_right].
  pose proof (fold_min_le z l). lia.
Qed.

Lemma amax_list_max (l : list Z) : l <> [] -> amax l = Ok (list_max l).
Proof.
  destruct l as [|z l]; [congruence|]. intros _. unfold amax, list_max. f_equal.
  rewrite fold_symmetric by (intros; lia). cbn [hd fold_right].
  pose proof (fold_max_ge z l). lia.
Qed.

(** [list_min] and [list_max] are the axis-wise minimum and maximum. *)
Lemma list_min_spec (l : list Z) :
  l <> [] -> In (list_min l) l /\ Forall (fun z => (list_min l <= z)%Z) l.
Proof.
  destruct l as [|z l]; [congruence|]. intros _. unfold list_min. cbn [hd].
  assert (H : forall l', (In (fold_right Z.min z l') l' \/ fold_right Z.min z l' = z)
                         /\ Forall (fun y => (fold_right Z.min z l' <= y)%Z) l').
  { induction l' as [|a l' (IH1 & IH2)]; cbn [fold_right].
    - split; [right; reflexivity|constructor].
    - split.
      + destruct (Z.min_spec a (fold_right Z.min z l')) as [(_ & ->)|(_ & ->)].
        * left. left. reflexivity.
        * destruct IH1; [left; right; assumption|right; assumption].
      + constructor; [lia|].
        apply (Forall_impl _ (P := fun y => (fold_right Z.min z l' <= y)%Z));
          [intros; lia|assumption]. }
  destruct (H (z :: l)) as (H1 & H2). split; [|exact H2].
  destruct H1 as [H1|H1]; [exact H1|]. rewrite H1. left. reflexivity.
Qed.

Lemma list_max_spec (l : list Z) :
  l <> [] -> In (list_max l) l /\ Forall (fun z => (z <= list_max l)%Z) l.
Proof.
  destruct l as [|z l]; [congruence|]. intros _. unfold list_max. cbn [hd].
  assert (H : forall l', (In (fold_right Z.max z l') l' \/ fold_right Z.max z l' = z)
                         /\ Forall (fun y => (y <= fold_right Z.max z l')%Z) l').
  { induction l' as [|a l' (IH1 & IH2)]; cbn [fold_right].
    - split; [right; reflexivity|constructor].
    - split.
      + destruct (Z.max_spec a (fold_right Z.max z l')) as [(_ & ->)|(_ & ->)].
        * destruct IH1; [left; right; assumption|right; assumption].
        * left. left. reflexivity.
      + constructor; [lia|].
        apply (Forall_impl _ (P := fun y => (y <= fold_right Z.max z l')%Z));
          [intros; lia|assumption]. }
  destruct (H (z :: l)) as (H1 & H2). split; [|exact H2].
  destruct H1 as [H1|H1]; [exact H1|]. rewrite H1. left. reflexivity.
Qed.

(** Lines 340-346 leave nothing of the six bounds computed before. *)
Lemma heat_map_override_six (a b c d e g : Z) :
  heat_map_override [a; b; c; d; e; g] = full_extent.
Proof. reflexivity. Qed.

Lemma probe_box_six (limitX limitY limitZ lim : list Z) :
  probe_box limitX limitY limitZ = Ok lim ->
  exists a b c d e g, lim = [a; b; c; d; e; g].
Proof.
  unfold probe_box. intro H.
  destruct (amin limitX); [|discriminate]. destruct (amax limitX); [|discriminate].
  destruct (amin limitY); [|discriminate]. destruct (amax limitY); [|discriminate].
  destruct (amin limitZ); [|discriminate]. destruct (amax limitZ); [|discriminate].
  cbn [bind nth] in H.
  repeat match type of H with
         | context [if ?c then _ else _] => destruct c; cbn [upd nth] in H
         end;
    injection H as <-; repeat eexists.
Qed.

(** Whatever the probes and the transform: when [getLimits] returns, it
    returns the fixed extent. *)
Lemma getLimits_fixed (probes : list (vec3 R)) (M : vtkMatrix4x4) (lim : list Z) :
  getLimits probes M = Ok lim -> lim = full_extent.
Proof.
  unfold getLimits. intro H.
  destruct (probe_indices probes M) as [[[lx ly] lz]|]; [|discriminate].
  cbn [bind] in H. destruct (probe_box lx ly lz) as [box|] eqn:E; [|discriminate].
  cbn [bind] in H. injection H as <-.
  destruct (probe_box_six _ _ _ _ E) as (a & b & c & d & e & g & ->).
  apply heat_map_override_six.
Qed.

Lemma probe_indices_fit (probes : list (vec3 R)) (M : vtkMatrix4x4) :
  indices_fit probes M ->
  probe_indices probes M
  = Ok (map (fun pr => py_int (h0 (index_point M pr))) probes,
        map (fun pr => py_int (h1 (index_point M pr))) probes,
        map (fun pr => py_int (h2 (index_point M pr))) probes).
Proof.
  intro Hfit. unfold probe_indices.
  rewrite (mapM_all_ok _
             (fun pr => (py_int (h0 (index_point M pr)),
                         py_int (h1 (index_point M pr)),
                         py_int (h2 (index_point M pr))))).
  - cbn [bind]. rewrite !map_map. reflexivity.
  - intros pr Hpr. destruct (Hfit pr Hpr) as (Ha & Hb & Hc).
    fold (index_point M pr).
    rewrite !int64_of_float_fits by assumption. reflexivity.
Qed.

Lemma probe_box_margin (limitX limitY limitZ : list Z) :
  limitX <> [] -> limitY <> [] -> limitZ <> [] ->
  Forall (fun z => (- 2 ^ 62 <= z <= 2 ^ 62)%Z) (limitX ++ limitY ++ limitZ) ->
  probe_box limitX limitY limitZ = Ok (margin_box limitX limitY limitZ).
Proof.
  intros HX HY HZ Hb. rewrite !Forall_app in Hb. destruct Hb as (BX & BY & BZ).
  rewrite Forall_forall in BX, BY, BZ.
  pose proof (BX _ (proj1 (list_min_spec limitX HX))).
  pose proof (BX _ (proj1 (list_max_spec limitX HX))).
  pose proof (BY _ (proj1 (list_min_spec limitY HY))).
  pose proof (BY _ (proj1 (list_max_spec limitY HY))).
  pose proof (BZ _ (proj1 (list_min_spec limitZ HZ))).
  pose proof (BZ _ (proj1 (list_max_spec limitZ HZ))).
  unfold probe_box.
  rewrite !amin_list_min, !amax_list_max by assumption. cbn [bind].
  rewrite !wrap64_small by lia.
  unfold margin_box.
  remember (list_min limitX - 30)%Z as a. remember (list_max limitX + 30)%Z as b.
  remember (list_min limitY - 30)%Z as c. remember (list_max limitY + 30)%Z as d.
  remember (list_min limitZ - 5)%Z as e. remember (list_max limitZ + 5)%Z as g.
  cbn [nth].
  destruct (b >=? 190)%Z eqn:E1; cbn [upd nth];
    destruct (d >=? 168)%Z eqn:E2; cbn [upd nth];
      destruct (g >=? 19)%Z eqn:E3; cbn [upd nth];
        destruct (e <? 1)%Z eqn:E4; cbn [upd nth];
          rewrite Z.geb_leb in E1, E2, E3;
          first [apply Z.leb_le in E1 | apply Z.leb_gt in E1];
          first [apply Z.leb_le in E2 | apply Z.leb_gt in E2];
          first [apply Z.leb_le in E3 | apply Z.leb_gt in E3];
          first [apply Z.ltb_lt in E4 | apply Z.ltb_ge in E4];
          repeat f_equal; lia.
Qed.

Lemma getLimits_returns (probes : list (vec3 R)) (M : vtkMatrix4x4) :
  probes <> [] -> indices_fit probes M -> getLimits probes M = Ok full_extent.
Proof.
  intros Hne Hfit. unfold getLimits. rewrite probe_indices_fit by assumption.
  cbn [bind]. rewrite probe_box_margin.
  - reflexivity.
  - destruct probes; [congruence|discriminate].
  - destruct probes; [congruence|discriminate].
  - destruct probes; [congruence|discriminate].
  - rewrite !Forall_app. repeat split; apply Forall_forall; intros z Hz;
      apply in_map_iff in Hz; destruct Hz as (pr & <- & Hpr);
      destruct (Hfit pr Hpr) as (Ha & Hb & Hc); apply py_int_bounded; assumption.
Qed.

Lemma index_point_identity (pr : vec3 R) :
  index_point identity4 pr = Vec4 (x0 pr) (x1 pr) (x2 pr) 1.
Proof. unfold index_point, MultiplyDoublePoint, dot4. cbn. f_equal; ring. Qed.

Lemma probes_example_fit : indices_fit probes_example identity4.
Proof.
  assert (HB : IZR (2 ^ 62) = 4611686018427387904) by reflexivity.
  intros pr [<-|[<-|[]]]; rewrite index_point_identity, HB; cbn [h0 h1 h2 x0 x1 x2];
    rewrite !Rabs_right by lra; lra.
Qed.

Lemma probes_example_limits :
  map (fun pr => py_int (h0 (index_point identity4 pr))) probes_example = [100; 110]%Z
  /\ map (fun pr => py_int (h1 (index_point identity4 pr))) probes_example = [100; 90]%Z
  /\ map (fun pr => py_int (h2 (index_point identity4 pr))) probes_example = [10; 12]%Z.
Proof.
  unfold probes_example. cbn [map]. rewrite !index_point_identity.
  cbn [h0 h1 h2 x0 x1 x2]. rewrite !py_int_IZR. auto.
Qed.

Lemma probes_example_indices :
  probe_indices probes_example identity4
  = Ok ([100; 110]%Z, [100; 90]%Z, [10; 12]%Z).
Proof.
  rewrite probe_indices_fit by apply probes_example_fit.
  destruct probes_example_limits as (-> & -> & ->). reflexivity.
Qed.



(** C5 (as amended).  For 2 or 3 probe tips whose index coordinates fit,
    [getLimits] maps each tip to index space (coordinates truncated to
    integers), takes the axis-wise minimum and maximum, adds the margin
    (30, 30, 5), clamps the upper bounds to (190, 168, 19) and the lower
    slice bound to at least 1 -- and then overwrites the six bounds: what
    it returns is (0, 191, 0, 167, 0, SLICE_N), not the box. *)
Theorem getLimits_box_then_override
    (probes : list (vec3 R)) (rasToijkMatrix : vtkMatrix4x4) :
  (List.length probes = 2 \/ List.length probes = 3)%nat ->
  indices_fit probes rasToijkMatrix ->
  let limitX := map (fun pr => py_int (h0 (index_point rasToijkMatrix pr))) probes in
  let limitY := map (fun pr => py_int (h1 (index_point rasToijkMatrix pr))) probes in
  let limitZ := map (fun pr => py_int (h2 (index_point rasToijkMatrix pr))) probes in
  probe_indices probes rasToijkMatrix = Ok (limitX, limitY, limitZ)
  /\ probe_box limitX limitY limitZ
     = Ok [ list_min limitX - 30; Z.min 190 (list_max limitX + 30);
            list_min limitY - 30; Z.min 168 (list_max limitY + 30);
            Z.max 1 (list_min limitZ - 5); Z.min 19 (list_max limitZ + 5) ]%Z
  /\ (forall l, In l [limitX; limitY; limitZ] ->
        In (list_min l) l /\ Forall (fun z => (list_min l <= z)%Z) l
        /\ In (list_max l) l /\ Forall (fun z => (z <= list_max l)%Z) l)
  /\ getLimits probes rasToijkMatrix = Ok [0; 191; 0; 167; 0; SLICE_N]%Z.
Proof.
  intros Hn Hfit limitX limitY limitZ.
  assert (Hne : probes <> []) by (destruct probes; [cbn in Hn; lia|discriminate]).
  assert (HX : limitX <> []) by (subst limitX; destruct probes; [congruence|discriminate]).
  assert (HY : limitY <> []) by (subst limitY; destruct probes; [congruence|discriminate]).
  assert (HZ : limitZ <> []) by (subst limitZ; destruct probes; [congruence|discriminate]).
  split; [apply probe_indices_fit; assumption|].
  split.
  - apply probe_box_margin; try assumption.
    rewrite !Forall_app. repeat split; apply Forall_forall; intros z Hz;
      apply in_map_iff in Hz; destruct Hz as (pr & <- & Hpr);
      destruct (Hfit pr Hpr) as (Ha & Hb & Hc); apply py_int_bounded; assumption.
  - split.
    + intros l [<-|[<-|[<-|[]]]];
        (split; [|split; [|split]];
         [apply list_min_spec|apply list_min_spec|apply list_max_spec|apply list_max_spec];
         assumption).
    + apply getLimits_returns; assumption.
Qed.

(** The C5 statement at the two example probes. *)
Lemma getLimits_box_then_override_witness :
  ((List.length probes_example = 2 \/ List.length probes_example = 3)%nat
   /\ indices_fit probes_example identity4)
  /\ probe_box [100; 110]%Z [100; 90]%Z [10; 12]%Z = Ok [70; 140; 60; 130; 5; 17]%Z
  /\ getLimits probes_example identity4 = Ok [0; 191; 0; 167; 0; SLICE_N]%Z.
Proof.
  split; [split; [left; reflexivity|apply probes_example_fit]|].
  destruct (getLimits_box_then_override probes_example identity4
              (or_introl eq_refl) probes_example_fit) as (Hi & Hb & _ & Hg).
  split; [|exact Hg].
  destruct probes_example_limits as (EX & EY & EZ).
  rewrite EX, EY, EZ in Hb. exact Hb.
Defined.

(** C5 (counterexample).  For two probes at index coordinates
    (100, 100, 10) and (110, 90, 12) the box of the claim is
    (70, 140, 60, 130, 5, 17); [getLimits] returns
    (0, 191, 0, 167, 0, 40). *)
Lemma getLimits_does_not_return_the_box :
  probe_indices probes_example identity4
  = Ok ([100; 110]%Z, [100; 90]%Z, [10; 12]%Z)
  /\ margin_box [100; 110]%Z [100; 90]%Z [10; 12]%Z = [70; 140; 60; 130; 5; 17]%Z
  /\ getLimits probes_example identity4 = Ok [0; 191; 0; 167; 0; 40]%Z
  /\ getLimits probes_example identity4
     <> Ok (margin_box [100; 110]%Z [100; 90]%Z [10; 12]%Z).
Proof.
  split; [apply probes_example_indices|].
  split; [reflexivity|].
  assert (H : getLimits probes_example identity4 = Ok full_extent).
  { apply getLimits_returns; [discriminate|apply probes_example_fit]. }
  split; [exact H|]. rewrite H. discriminate.
Qed.

(* ================================================================== *)
(** ** The urethra curve *)

Lemma length_linspace (a b : R) (n : nat) : List.length (linspace a b n) = n.
Proof.
  unfold linspace.
  destruct (0 <? n - 1)%nat; destruct (1 <? n)%nat;
    rewrite ?length_upd, !length_map, length_seq; reflexivity.
Qed.

Lemma nth_map_in_range {A B : Type} (f : A -> B) (l : list A) (i : nat) (d : B) (d' : A) :
  (i < List.length l)%nat -> nth i (map f l) d = f (nth i l d').
Proof.
  intro Hi. rewrite (nth_indep _ d (f d')) by (rewrite length_map; assumption).
  apply map_nth.
Qed.

Lemma nth_linspace (a b : R) (n i : nat) :
  (2 <= n)%nat -> (i < n)%nat ->
  nth i (linspace a b n) 0 = a + INR i * ((b - a) / INR (n - 1)).
Proof.
  intros Hn Hi. unfold linspace.
  assert (H0 : (0 <? n - 1)%nat = true) by (apply Nat.ltb_lt; lia).
  assert (H1 : (1 <? n)%nat = true) by (apply Nat.ltb_lt; lia).
  rewrite H0, H1.
  rewrite nth_upd by (rewrite !length_map, length_seq; lia).
  assert (Hd : INR (n - 1) <> 0) by (apply not_0_INR; lia).
  destruct (Nat.eqb_spec i (n - 1)) as [->|Hne].
  - field. assumption.
  - rewrite (nth_map_in_range _ _ i 0 0) by (rewrite length_map, length_seq; lia).
    rewrite (nth_map_in_range _ _ i 0 0%nat) by (rewrite length_seq; lia).
    rewrite seq_nth by lia. cbn [Nat.add]. ring.
Qed.

Lemma nth_py_range (a b : Z) (i : nat) (d : Z) :
  (i < Z.to_nat (b - a))%nat -> nth i (py_range a b) d = (a + Z.of_nat i)%Z.
Proof.
  intro Hi. unfold py_range.
  rewrite (nth_map_in_range _ _ i d 0%nat) by (rewrite length_seq; lia).
  rewrite seq_nth by lia. reflexivity.
Qed.

Lemma strictly_increasingb_true (x : list R) :
  strictly_increasingb x = true <-> strictly_increasing x.
Proof.
  unfold strictly_increasing. induction x as [|a [|b x] IH].
  - split; [intros _ i Hi; cbn in Hi; lia|reflexivity].
  - split; [intros _ i Hi; cbn in Hi; lia|reflexivity].
  - cbn [strictly_increasingb]. rewrite andb_true_iff, Rgtb_true, IH. split.
    + intros (Hab & H) [|i] Hi; [exact Hab|].
      apply (H i). cbn [List.length] in *. lia.
    + intro H. split.
      * apply (H 0%nat). cbn [List.length]. lia.
      * intros i Hi. apply (H (S i)). cbn [List.length] in *. lia.
Qed.

Section UrethraCurve.

Variable natural_spline : list R -> list R -> R -> R.

Lemma CubicSpline_valid (x y : list R) :
  (2 <= List.length x)%nat -> List.length x = List.length y ->
  strictly_increasing x ->
  CubicSpline natural_spline x y = Ok (natural_spline x y).
Proof.
  intros Hn Hl Hi. unfold CubicSpline.
  replace (List.length x <? 2)%nat with false by (symmetry; apply Nat.ltb_ge; lia).
  replace (List.length x =? List.length y)%nat with true
    by (symmetry; apply Nat.eqb_eq; assumption).
  replace (strictly_increasingb x) with true
    by (symmetry; apply strictly_increasingb_true; assumption).
  reflexivity.
Qed.

(** scipy refuses fewer than two points and an abscissa that is not
    strictly increasing. *)
Lemma CubicSpline_invalid (x y : list R) :
  (List.length x < 2)%nat \/ ~ strictly_increasing x ->
  CubicSpline natural_spline x y = Raise ValueError.
Proof.
  intro H. unfold CubicSpline.
  destruct (List.length x <? 2)%nat eqn:E1; [reflexivity|].
  destruct (negb (List.length x =? List.length y)%nat); [reflexivity|].
  destruct (strictly_increasingb x) eqn:E3; [|reflexivity].
  apply Nat.ltb_ge in E1. apply strictly_increasingb_true in E3.
  destruct H; [lia|contradiction].
Qed.

Lemma resampled_points (xs ys zs : list R) :
  Z.of_nat (List.length xs) = SLICE_N -> Z.of_nat (List.length ys) = SLICE_N ->
  Z.of_nat (List.length zs) = SLICE_N ->
  mapM (fun i =>
          xi <- getitem xs i ;;
          yi <- getitem ys i ;;
          zi <- getitem zs i ;;
          Ok (Vec3 xi yi zi)) (py_range 0 SLICE_N)
  = Ok (map (fun i => Vec3 (nth (Z.to_nat i) xs 0) (nth (Z.to_nat i) ys 0)
                           (nth (Z.to_nat i) zs 0))
            (py_range 0 SLICE_N)).
Proof.
  intros Hx Hy Hz. apply mapM_all_ok. intros i Hi. apply In_py_range in Hi.
  rewrite (getitem_in_range xs i 0), (getitem_in_range ys i 0),
    (getitem_in_range zs i 0) by lia.
  reflexivity.
Qed.


End UrethraCurve.


(* ================================================================== *)
(** ** [run] *)

Lemma bindM_ok {A B : Type} (m : M A) (k : A -> M B) (w w' : World) (a : A) :
  m w = (w', Ok a) -> bindM m k w = k a w'.
Proof. intro H. unfold bindM. rewrite H. reflexivity. Qed.

Lemma bindM_raise {A B : Type} (m : M A) (k : A -> M B) (w w' : World) (e : exception) :
  m w = (w', Raise e) -> bindM m k w = (w', Raise e).
Proof. intro H. unfold bindM. rewrite H. reflexivity. Qed.

Section RunProps.

Variable natural_spline : list R -> list R -> R -> R.

Lemma urethra_curve_invalid (markers : list (vec3 R)) :
  (List.length markers < 2)%nat \/ ~ strictly_increasing (map x2 markers) ->
  urethra_curve natural_spline markers = Raise ValueError.
Proof.
  intro H. unfold urethra_curve. rewrite CubicSpline_invalid; [reflexivity|].
  rewrite length_map. assumption.
Qed.

(** C9.  With fewer than 2 urethra markers, or with marker z values that
    are not strictly monotonic, [run] fails at once -- with the
    [ValueError] scipy's [CubicSpline] raises, which is the code's
    degenerate-input error -- and leaves the world as it was: no node has
    been added to the scene, no array created, nothing written. *)
Theorem run_fails_on_degenerate_markers
    (inputVolume : inputVolumeNode) (imageThreshold : R) (enableScreenshots : Z)
    (w : World) (markers : list (vec3 R)) :
  getNode "urethra_points" w
  = (w, Ok (vtkMRMLMarkupsFiducialNode "urethra_points" markers)) ->
  (List.length markers < 2)%nat \/ ~ strictly_monotonic (map x2 markers) ->
  run natural_spline inputVolume imageThreshold enableScreenshots w
  = (w, Raise ValueError).
Proof.
  intros Hnode Hdeg. unfold run.
  rewrite (bindM_ok _ _ _ _ _ Hnode).
  cbn [fiducials_of]. unfold lift at 1. unfold bindM at 1.
  apply bindM_raise. unfold lift. f_equal.
  apply urethra_curve_invalid.
  destruct Hdeg as [Hl|Hm]; [left; assumption|right].
  intro Hi. apply Hm. left. assumption.
Qed.

End RunProps.

(** The C9 statement for a scene with a single urethra marker. *)
Lemma run_fails_on_degenerate_markers_witness :
  (getNode "urethra_points" world_one_marker
   = (world_one_marker,
      Ok (vtkMRMLMarkupsFiducialNode "urethra_points" [Vec3 1 2 0]))
   /\ ((List.length [Vec3 1 2 0] < 2)%nat
       \/ ~ strictly_monotonic (map x2 [Vec3 1 2 0])))
  /\ run line_through volume_example (1 / 2) 0 world_one_marker
     = (world_one_marker, Raise ValueError).
Proof.
  split; [split; [reflexivity|left; cbn; lia]|].
  apply (run_fails_on_degenerate_markers line_through volume_example (1 / 2) 0
           world_one_marker [Vec3 1 2 0]).
  - reflexivity.
  - left. cbn. lia.
Defined.

(** The points of the resampled curve. *)
Section CurvePoints.

Variable natural_spline : list R -> list R -> R -> R.

Lemma urethra_curve_points (markers : list (vec3 R)) :
  (2 <= List.length markers)%nat ->
  strictly_increasing (map x2 markers) ->
  exists curve,
    urethra_curve natural_spline markers = Ok curve
    /\ List.length curve = 40%nat
    /\ forall i, (i < 40)%nat ->
         let zi := nth i (linspace (nth 0 (map x2 markers) 0)
                                   (nth (List.length markers - 1) (map x2 markers) 0) 40) 0 in
         nth i curve (Vec3 0 0 0)
         = Vec3 (natural_spline (map x2 markers) (map x0 markers) zi)
                (natural_spline (map x2 markers) (map x1 markers) zi) zi.
Proof.
  intros Hn Hinc.
  set (x := map x0 markers). set (y := map x1 markers). set (z := map x2 markers).
  assert (Hlz : List.length z = List.length markers) by apply length_map.
  assert (Hlx : List.length x = List.length markers) by apply length_map.
  assert (Hly : List.length y = List.length markers) by apply length_map.
  set (z_new := linspace (nth 0 z 0) (nth (List.length markers - 1) z 0) 40).
  assert (Hzn : List.length z_new = 40%nat) by apply length_linspace.
  eexists. split; [|split].
  - unfold urethra_curve. fold x y z.
    rewrite (CubicSpline_valid natural_spline z x) by (try assumption; lia).
    cbn [bind]. rewrite (getitem_in_range z 0 0) by lia. cbn [bind].
    rewrite (getitem_in_range z (Z.of_nat (List.length markers) - 1) 0) by lia.
    cbn [bind].
    rewrite (CubicSpline_valid natural_spline z y) by (try assumption; lia).
    cbn [bind].
    replace (Z.to_nat (Z.of_nat (List.length markers) - 1))
      with (List.length markers - 1)%nat by lia.
    change (Z.to_nat 0) with 0%nat. change (Z.to_nat SLICE_N) with 40%nat.
    fold z_new.
    apply resampled_points; rewrite ?length_map, Hzn; reflexivity.
  - rewrite length_map, length_py_range. reflexivity.
  - intros i Hi zi.
    rewrite (nth_map_in_range _ _ i (Vec3 0 0 0) 0%Z)
      by (rewrite length_py_range; unfold SLICE_N; lia).
    rewrite nth_py_range by (unfold SLICE_N; lia).
    replace (Z.to_nat (0 + Z.of_nat i)) with i by lia.
    rewrite !(nth_map_in_range _ z_new i 0 0) by (rewrite Hzn; lia).
    reflexivity.
Qed.

End CurvePoints.

(* ================================================================== *)
(** ** A run that succeeds *)

Lemma getNode_keeps_world (name : string) (w : World) : fst (getNode name w) = w.
Proof. reflexivity. Qed.

Lemma getNode_after_AddNode (name : string) (n : node) (w : World) :
  snd (getNode name (fst (AddNode n w)))
  = if String.eqb (GetName n) name then Ok n else snd (getNode name w).
Proof.
  unfold getNode, AddNode. cbn [fst snd mrmlScene].
  rewrite rev_app_distr. cbn [rev app find].
  destruct (String.eqb (GetName n) name); reflexivity.
Qed.

(** Lines 398-404: rows [0 .. length fids - 1] of the matrix are replaced
    by the fiducials, the others stay. *)
Lemma fill_rows_from (fids : list (vec3 R)) (c s : nat) (m : list (vec3 R)) :
  (s + c <= List.length m)%nat ->
  exists m',
    foldM (fun m i =>
             let ras := GetNthFiducialPosition fids i (Vec3 0 0 0) in
             setitem m (Z.of_nat i) ras) (seq s c) m = Ok m'
    /\ List.length m' = List.length m
    /\ forall j d, (s <= j < s + c)%nat -> nth j m' d = nth j fids (Vec3 0 0 0).
Proof.
  revert s m. induction c as [|c IH]; intros s m Hlen.
  - exists m. cbn. repeat split; auto. intros; lia.
  - cbn [seq foldM].
    rewrite setitem_in_range by lia. cbn [bind].
    destruct (IH (S s) (upd (Z.to_nat (Z.of_nat s))
                            (GetNthFiducialPosition fids s (Vec3 0 0 0)) m))
      as (m' & E & Hl & Hn).
    { rewrite length_upd. lia. }
    exists m'. split; [exact E|]. split; [rewrite Hl; apply length_upd|].
    intros j d Hj. destruct (Nat.eq_dec j s) as [->|Hne].
    + clear Hn.
      assert (Hkeep : forall c' s' (m0 m1 : list (vec3 R)),
                 (s < s')%nat ->
                 foldM (fun m i =>
                          let ras := GetNthFiducialPosition fids i (Vec3 0 0 0) in
                          setitem m (Z.of_nat i) ras) (seq s' c') m0 = Ok m1 ->
                 nth s m1 d = nth s m0 d).
      { induction c' as [|c' IHc]; intros s' m0 m1 Hs E'.
        - cbn in E'. injection E' as <-. reflexivity.
        - cbn [seq foldM] in E'.
          destruct (setitem m0 (Z.of_nat s') _) as [m2|] eqn:E2; [|discriminate].
          cbn [bind] in E'. rewrite (IHc _ _ _ (Nat.lt_lt_succ_r _ _ Hs) E').
          unfold setitem in E2.
          destruct (axis_index _ _) as [n|] eqn:E3; [|discriminate].
          cbn [bind] in E2. injection E2 as <-.
          unfold axis_index in E3.
          destruct ((0 <=? Z.of_nat s')%Z && _)%bool eqn:E4.
          + injection E3 as <-. rewrite Nat2Z.id.
            destruct (Nat.lt_ge_cases s' (List.length m0)) as [Hlt|Hge].
            * rewrite nth_upd by assumption.
              replace (s =? s')%nat with false by (symmetry; apply Nat.eqb_neq; lia).
              reflexivity.
            * apply andb_true_iff in E4. destruct E4 as (_ & E4).
              apply Z.ltb_lt in E4. lia.
          + destruct ((_ <=? _)%Z && (_ <? 0)%Z)%bool eqn:E5; [|discriminate].
            apply andb_true_iff in E5. destruct E5 as (_ & E5).
            apply Z.ltb_lt in E5. lia. }
      rewrite (Hkeep _ _ _ _ (Nat.lt_succ_diag_r s) E).
      rewrite Nat2Z.id, nth_upd by lia. rewrite Nat.eqb_refl. reflexivity.
    + apply Hn. lia.
Qed.

Lemma fill_rows_ok (UretraMatrix fids : list (vec3 R)) :
  (List.length fids <= List.length UretraMatrix)%nat ->
  exists m',
    fill_rows UretraMatrix fids = Ok m'
    /\ List.length m' = List.length UretraMatrix
    /\ forall j, (j < List.length fids)%nat ->
         nth j m' (Vec3 0 0 0) = nth j fids (Vec3 0 0 0).
Proof.
  intro H. destruct (fill_rows_from fids (List.length fids) 0 UretraMatrix)
    as (m' & E & Hl & Hn); [lia|].
  exists m'. split; [exact E|]. split; [exact Hl|].
  intros j Hj. apply Hn. lia.
Qed.

Lemma setitem_length {A : Type} (l l' : list A) (i : Z) (v : A) :
  setitem l i v = Ok l' -> List.length l' = List.length l.
Proof.
  unfold setitem. destruct (axis_index _ _); [|discriminate].
  cbn [bind]. intro H. injection H as <-. apply length_upd.
Qed.

Lemma for_each_invariant {A S : Type} (P : S -> Prop)
      (body : S -> A -> result S) (l : list A) (s : S) :
  P s -> (forall s a s', P s -> body s a = Ok s' -> P s') ->
  P (fst (for_each body l s)).
Proof.
  intros Hs Hstep. revert s Hs. induction l as [|a l IH]; intros s Hs; [exact Hs|].
  cbn [for_each]. destruct (body s a) eqn:E; [|exact Hs].
  apply IH. apply (Hstep s a); assumption.
Qed.

(** Lines 433-444 never fail: they yield a matrix [probe3] of as many rows
    as before and a probe count of 2 or 3, and leave the world as it is. *)
Lemma load_probe3_total (numFids4 : nat) (probe3 : list (vec3 R)) (w : World) :
  exists probe3' nofProbes,
    load_probe3 numFids4 probe3 w = (w, Ok (probe3', nofProbes))
    /\ List.length probe3' = List.length probe3
    /\ (nofProbes = 2 \/ nofProbes = 3)%Z.
Proof.
  unfold load_probe3. destruct (getNode "probe3" w) as [w0 [fidList4|e]].
  - match goal with
    | |- context [for_each ?b ?l ?s] =>
        pose proof (for_each_invariant
                      (fun p => List.length p = List.length probe3) b l s eq_refl) as Hinv;
        destruct (for_each b l s) as [probe3' exn]
    end.
    cbn [fst] in Hinv.
    assert (Hl : List.length probe3' = List.length probe3).
    { apply Hinv. intros s a s' Hs Hb.
      destruct (fiducials_of fidList4) as [fids|]; [|discriminate].
      cbn [bind] in Hb.
      destruct (setitem s (Z.of_nat a) _) as [s1|] eqn:E1; [|discriminate].
      cbn [bind] in Hb.
      destruct (getitem s1 (Z.of_nat a)) as [row|]; [|discriminate].
      cbn [bind] in Hb.
      apply setitem_length in Hb, E1. congruence. }
    destruct exn; eexists; eexists; (split; [reflexivity|]); auto.
  - exists probe3, 2%Z. auto.
Qed.

Lemma getNode_eq (name : string) (w : World) :
  getNode name w = (w, snd (getNode name w)).
Proof. reflexivity. Qed.

Lemma getNode_added (n : node) (w : World) :
  getNode (GetName n) (fst (AddNode n w)) = (fst (AddNode n w), Ok n).
Proof.
  rewrite getNode_eq, getNode_after_AddNode, String.eqb_refl. reflexivity.
Qed.

Lemma getNode_other (name : string) (n nd : node) (w : World) :
  String.eqb (GetName n) name = false ->
  getNode name w = (w, Ok nd) ->
  getNode name (fst (AddNode n w)) = (fst (AddNode n w), Ok nd).
Proof.
  intros Hne Hw.
  rewrite getNode_eq, getNode_after_AddNode, Hne, Hw. reflexivity.
Qed.

Lemma lift_ok {A : Type} (r : result A) (a : A) (w : World) :
  r = Ok a -> lift r w = (w, Ok a).
Proof. intros ->. reflexivity. Qed.

Lemma open_result_table_ok (w : World) :
  cases_dir_exists w = true ->
  exists w', open_result_table w = (w', Ok tt)
             /\ mrmlScene w' = mrmlScene w /\ fresh_memory w' = fresh_memory w.
Proof.
  intro H. unfold open_result_table. rewrite H. eexists. split; [reflexivity|].
  split; reflexivity.
Qed.

Section RunSucceeds.

Variable natural_spline : list R -> list R -> R -> R.
Variable inputVolume : inputVolumeNode.
Variable imageThreshold : R.
Variable enableScreenshots : Z.
Variable w : World.
Variables urethra_points IntraOpTargets : node.
Variables markers targets : list (vec3 R).

Hypothesis urethra_points_node : getNode "urethra_points" w = (w, Ok urethra_points).
Hypothesis urethra_points_fiducials : fiducials_of urethra_points = Ok markers.
Hypothesis markers_two : (2 <= List.length markers)%nat.
Hypothesis markers_increasing : strictly_increasing (map x2 markers).
Hypothesis targets_node : getNode "IntraOpTargets" w = (w, Ok IntraOpTargets).
Hypothesis targets_fiducials : fiducials_of IntraOpTargets = Ok targets.
Hypothesis cases_dir : cases_dir_exists w = true.
Hypothesis probes_fit :
  indices_fit [nth 0 targets (Vec3 0 0 0); nth 1 targets (nth 0 targets (Vec3 0 0 0))]
              (RASToIJKMatrix inputVolume).

Lemma run_succeeds :
  exists curve UretraMatrix probe3 nofProbes st',
    urethra_curve natural_spline markers = Ok curve
    /\ List.length UretraMatrix = 56%nat
    /\ (forall k, (k < 40)%nat ->
          nth k UretraMatrix (Vec3 0 0 0) = nth k curve (Vec3 0 0 0))
    /\ List.length probe3 = 2%nat
    /\ (nofProbes = 2 \/ nofProbes = 3)%Z
    /\ scan (IJKToRASMatrix inputVolume)
            [nth 0 targets (Vec3 0 0 0); Vec3 0 0 0]
            [nth 1 targets (nth 0 targets (Vec3 0 0 0)); Vec3 0 0 0]
            probe3 UretraMatrix nofProbes full_extent
            (initial_state {| dimensions := (192, 168, SLICE_N)%Z;
                              scalars := fresh_memory w |}) = Ok st'
    /\ (forall i j k, In (i, j, k) (scanned_voxels full_extent) ->
          let p := prob_at (IJKToRASMatrix inputVolume)
                           [nth 0 targets (Vec3 0 0 0); Vec3 0 0 0]
                           [nth 1 targets (nth 0 targets (Vec3 0 0 0)); Vec3 0 0 0]
                           probe3 UretraMatrix nofProbes i j k in
          cell (s_img2 st') k j i = 10 * p
          /\ cell (s_img3 st') k j i = (if Rgtb p THRESHOLD then 1 else 0))
    /\ exists w',
         run natural_spline inputVolume imageThreshold enableScreenshots w
         = (w', Ok true)
         /\ mrmlScene w'
            = mrmlScene w ++
              [ vtkMRMLMarkupsFiducialNode "urethra" curve;
                vtkMRMLLabelMapVolumeNode "predictedIceball" (s_img2 st')
                                          (IJKToRASMatrix inputVolume);
                vtkMRMLScalarVolumeNode "" (s_img2 st') (IJKToRASMatrix inputVolume);
                vtkMRMLLabelMapVolumeNode "" (s_img3 st') (IJKToRASMatrix inputVolume);
                vtkMRMLScalarVolumeDisplayNode "" "vtkMRMLColorTableNodeRainbow" ].
Proof.
  destruct (urethra_curve_points natural_spline markers markers_two markers_increasing)
    as (curve & Hcurve & Hlen & _).
  destruct (fill_rows_ok (zero_rows 56) curve) as (UM & HUM & HUMlen & HUMnth).
  { rewrite Hlen. unfold zero_rows. rewrite repeat_length. lia. }
  set (w1 := fst (AddNode (vtkMRMLMarkupsFiducialNode "urethra" curve) w)).
  destruct (load_probe3_total (List.length targets) (zero_rows 2) w1)
    as (probe3 & nofProbes & Hp3 & Hp3len & Hnof).
  set (r1 := nth 0 targets (Vec3 0 0 0)) in *.
  set (r2 := nth 1 targets r1) in *.
  set (image := {| dimensions := (192, 168, SLICE_N)%Z; scalars := fresh_memory w |}).
  destruct (full_scan_completes (IJKToRASMatrix inputVolume)
              [r1; Vec3 0 0 0] [r2; Vec3 0 0 0] probe3 UM nofProbes image)
    as (st' & Hscan & _).
  { cbn; lia. } { cbn; lia. } { rewrite Hp3len. cbn; lia. }
  { rewrite HUMlen. unfold zero_rows, SLICE_N. rewrite repeat_length. lia. }
  { reflexivity. }
  destruct (full_scan_cells (IJKToRASMatrix inputVolume)
              [r1; Vec3 0 0 0] [r2; Vec3 0 0 0] probe3 UM nofProbes image
              ltac:(cbn; lia) ltac:(cbn; lia) ltac:(rewrite Hp3len; cbn; lia)
              ltac:(rewrite HUMlen; unfold zero_rows, SLICE_N;
                    rewrite repeat_length; lia)
              eq_refl st' Hscan) as (Hcells & _).
  exists curve, UM, probe3, nofProbes, st'.
  split; [exact Hcurve|].
  split; [rewrite HUMlen; apply repeat_length|].
  split; [intros k Hk; apply HUMnth; lia|].
  split; [rewrite Hp3len; reflexivity|].
  split; [exact Hnof|].
  split; [exact Hscan|].
  split; [intros i j k Hv p; destruct (Hcells i j k Hv) as (H2 & H3 & _);
          split; assumption|].
  unfold run.
  rewrite (bindM_ok _ _ _ _ _ urethra_points_node).
  rewrite (bindM_ok _ _ _ _ _ (lift_ok _ _ w urethra_points_fiducials)).
  rewrite (bindM_ok _ _ _ _ _ (lift_ok _ _ w Hcurve)).
  rewrite (bindM_ok (AddNode _) _ w w1 tt eq_refl).
  rewrite (bindM_ok _ _ _ _ _
             (getNode_added (vtkMRMLMarkupsFiducialNode "urethra" curve) w)).
  fold w1.
  rewrite (bindM_ok _ _ _ _ _ (lift_ok _ _ w1 (eq_refl : fiducials_of (vtkMRMLMarkupsFiducialNode "urethra" curve) = Ok curve))).
  rewrite (bindM_ok _ _ _ _ _ (lift_ok _ _ w1 HUM)).
  rewrite (bindM_ok _ _ _ _ _
             (getNode_other "IntraOpTargets" (vtkMRMLMarkupsFiducialNode "urethra" curve)
                            IntraOpTargets w eq_refl targets_node)).
  fold w1.
  rewrite (bindM_ok _ _ _ _ _ (lift_ok _ _ w1 targets_fiducials)).
  rewrite (bindM_ok (lift (setitem (zero_rows 2) 0 _)) _ w1 w1
                    [r1; Vec3 0 0 0] eq_refl).
  rewrite (bindM_ok (lift (setitem (zero_rows 2) 0 _)) _ w1 w1
                    [r2; Vec3 0 0 0] eq_refl).
  rewrite (bindM_ok _ _ _ _ _ Hp3). cbn [fst snd].
  rewrite (bindM_ok (lift (getitem [r1; Vec3 0 0 0] 0)) _ w1 w1 r1 eq_refl).
  rewrite (bindM_ok (lift (getitem [r2; Vec3 0 0 0] 0)) _ w1 w1 r2 eq_refl).
  destruct (open_result_table_ok w1 cases_dir) as (w2 & Hopen & Hsc2 & Hfm2).
  rewrite (bindM_ok _ _ _ _ _ Hopen).
  rewrite (bindM_ok (AllocateScalars _ _ _) _ w2 w2 _ eq_refl).
  rewrite (bindM_ok _ _ _ _ _
             (lift_ok _ _ w2 (getLimits_returns [r1; r2] (RASToIJKMatrix inputVolume)
                                ltac:(discriminate) probes_fit))).
  rewrite (bindM_ok (AllocateScalars _ _ _) _ w2 w2 _ eq_refl).
  rewrite Hfm2. change (fresh_memory w1) with (fresh_memory w).
  rewrite (bindM_ok _ _ _ _ _ (lift_ok _ _ w2 Hscan)).
  eexists. split; [reflexivity|].
  cbn [bindM AddNode ret fst snd mrmlScene]. rewrite Hsc2.
  unfold w1. cbn [AddNode fst mrmlScene]. rewrite <- !app_assoc. reflexivity.
Qed.

End RunSucceeds.

(** C10.  Two runs on the same world (the same probe and urethra
    fiducials) whose input volumes have the same index/physical
    transforms give the same result and leave the same world -- the same
    emitted arrays -- whatever the two [imageThreshold] arguments and the
    voxel intensities of the two volumes.  When the run succeeds, the mask
    it emits holds 1 exactly at the scanned voxels whose probability
    exceeds the constant [THRESHOLD = 0.8]; [imageThreshold] plays no
    part. *)
Theorem run_ignores_threshold_and_intensities
    (natural_spline : list R -> list R -> R -> R)
    (volume1 volume2 : inputVolumeNode) (imageThreshold1 imageThreshold2 : R)
    (enableScreenshots : Z) (w : World) :
  IJKToRASMatrix volume1 = IJKToRASMatrix volume2 ->
  RASToIJKMatrix volume1 = RASToIJKMatrix volume2 ->
  run natural_spline volume1 imageThreshold1 enableScreenshots w
  = run natural_spline volume2 imageThreshold2 enableScreenshots w
  /\ forall urethra_points IntraOpTargets markers targets,
       getNode "urethra_points" w = (w, Ok urethra_points) ->
       fiducials_of urethra_points = Ok markers ->
       (2 <= List.length markers)%nat ->
       strictly_increasing (map x2 markers) ->
       getNode "IntraOpTargets" w = (w, Ok IntraOpTargets) ->
       fiducials_of IntraOpTargets = Ok targets ->
       cases_dir_exists w = true ->
       let Pr1 := nth 0 targets (Vec3 0 0 0) in
       let Pr2 := nth 1 targets Pr1 in
       indices_fit [Pr1; Pr2] (RASToIJKMatrix volume1) ->
       exists probe3 UretraMatrix nofProbes img2 img3 w',
         run natural_spline volume1 imageThreshold1 enableScreenshots w = (w', Ok true)
         /\ run natural_spline volume2 imageThreshold2 enableScreenshots w = (w', Ok true)
         /\ In (vtkMRMLLabelMapVolumeNode "" img3 (IJKToRASMatrix volume1)) (mrmlScene w')
         /\ In (vtkMRMLLabelMapVolumeNode "predictedIceball" img2
                                          (IJKToRASMatrix volume1)) (mrmlScene w')
         /\ In (vtkMRMLScalarVolumeNode "" img2 (IJKToRASMatrix volume1)) (mrmlScene w')
         /\ forall i j k, (0 <= i < 191 /\ 0 <= j < 167 /\ 0 <= k < SLICE_N)%Z ->
              let p := prob_at (IJKToRASMatrix volume1)
                               [Pr1; Vec3 0 0 0] [Pr2; Vec3 0 0 0]
                               probe3 UretraMatrix nofProbes i j k in
              cell img2 k j i = 10 * p
              /\ (8 / 10 < p -> cell img3 k j i = 1)
              /\ (p <= 8 / 10 -> cell img3 k j i = 0).
Proof.
  intros H1 H2.
  assert (Heq : run natural_spline volume1 imageThreshold1 enableScreenshots w
                = run natural_spline volume2 imageThreshold2 enableScreenshots w).
  { unfold run. rewrite H1, H2. reflexivity. }
  split; [exact Heq|].
  intros urethra_points IntraOpTargets markers targets
         Hn1 Hf1 Hm2 Hinc Hn2 Hf2 Hdir Pr1 Pr2 Hfit.
  destruct (run_succeeds natural_spline volume1 imageThreshold1 enableScreenshots w
              urethra_points IntraOpTargets markers targets
              Hn1 Hf1 Hm2 Hinc Hn2 Hf2 Hdir Hfit)
    as (curve & UM & probe3 & nofProbes & st' & _ & _ & _ & _ & _ & _
        & Hcells & w' & Hrun & Hscene).
  exists probe3, UM, nofProbes, (s_img2 st'), (s_img3 st'), w'.
  split; [exact Hrun|]. split; [rewrite <- Heq; exact Hrun|].
  rewrite Hscene.
  split; [apply in_or_app; right; cbn; auto 6|].
  split; [apply in_or_app; right; cbn; auto 6|].
  split; [apply in_or_app; right; cbn; auto 6|].
  intros i j k Hb p.
  destruct (Hcells i j k) as (E2 & E3).
  { apply In_scanned_voxels. cbn. exact Hb. }
  fold Pr1 Pr2 p in E2, E3.
  assert (HT : THRESHOLD = 8 / 10) by reflexivity.
  split; [exact E2|]. rewrite E3. split; intro Hp.
  - replace (Rgtb p THRESHOLD) with true; [reflexivity|].
    symmetry. apply Rgtb_true. rewrite HT. exact Hp.
  - replace (Rgtb p THRESHOLD) with false; [reflexivity|].
    symmetry. apply Rgtb_false. rewrite HT. exact Hp.
Qed.

(** The C10 statement for two volumes of the same geometry, with
    different voxel intensities and thresholds 0.5 and 0.9, on a scene with
    two urethra markers and two probes: both runs succeed and agree. *)
Lemma run_ignores_threshold_and_intensities_witness :
  (IJKToRASMatrix volume_example = IJKToRASMatrix volume_example'
   /\ RASToIJKMatrix volume_example = RASToIJKMatrix volume_example')
  /\ run line_through volume_example (5 / 10) 0 world_example
     = run line_through volume_example' (9 / 10) 0 world_example
  /\ exists w',
       run line_through volume_example (5 / 10) 0 world_example = (w', Ok true)
       /\ run line_through volume_example' (9 / 10) 0 world_example = (w', Ok true).
Proof.
  split; [split; reflexivity|].
  destruct (run_ignores_threshold_and_intensities line_through
              volume_example volume_example' (5 / 10) (9 / 10) 0 world_example
              eq_refl eq_refl) as (Heq & Hok).
  split; [exact Heq|].
  destruct (Hok (vtkMRMLMarkupsFiducialNode "urethra_points" markers_example)
                (vtkMRMLMarkupsFiducialNode "IntraOpTargets" probes_example)
                markers_example probes_example)
    as (probe3 & UM & nofProbes & img2 & img3 & w' & Hr1 & Hr2 & _).
  - reflexivity.
  - reflexivity.
  - cbn. lia.
  - intros [|[|i]] Hi; cbn in Hi; try lia. cbn. lra.
  - reflexivity.
  - reflexivity.
  - reflexivity.
  - exact probes_example_fit.
  - exists w'. split; assumption.
Defined.

(* ================================================================== *)
(** * Further properties of the code *)

(** ** The probability models *)

Lemma logistic_increasing (a b : R) : a <= b -> logistic a <= logistic b.
Proof.
  intro H. unfold logistic.
  pose proof (exp_pos a) as Ha. pose proof (exp_pos b) as Hb.
  assert (He : exp a <= exp b).
  { destruct H as [H | ->]; [left; apply exp_increasing; exact H|right; reflexivity]. }
  apply (Rmult_le_reg_r ((1 + exp a) * (1 + exp b))).
  - apply Rmult_lt_0_compat; lra.
  - replace (exp a / (1 + exp a) * ((1 + exp a) * (1 + exp b)))
      with (exp a * (1 + exp b)) by (field; lra).
    replace (exp b / (1 + exp b) * ((1 + exp a) * (1 + exp b)))
      with (exp b * (1 + exp a)) by (field; lra).
    lra.
Qed.

Lemma logistic_above_threshold (v : R) : 8 / 10 < logistic v <-> ln 4 < v.
Proof.
  unfold logistic. pose proof (exp_pos v) as He.
  assert (H4 : exp (ln 4) = 4) by (apply exp_ln; lra).
  split; intro H.
  - apply exp_lt_inv. rewrite H4.
    apply (Rmult_lt_compat_r (1 + exp v)) in H; [|lra].
    unfold Rdiv at 2 in H. rewrite Rmult_assoc, Rinv_l in H by lra. lra.
  - apply exp_increasing in H. rewrite H4 in H.
    apply (Rmult_lt_reg_r (1 + exp v)); [lra|].
    unfold Rdiv at 2. rewrite Rmult_assoc, Rinv_l by lra. lra.
Qed.

Lemma plane_offset_translate (t p q : vec3 R) :
  plane_offset (translate t p) (translate t q) = plane_offset p q.
Proof. unfold plane_offset, translate. cbn [x0 x1 x2]. f_equal. ring. Qed.

Lemma z_offset_translate (t p q : vec3 R) :
  z_offset (translate t p) (translate t q) = z_offset p q.
Proof. unfold z_offset, translate. cbn [x0 x1 x2]. f_equal. ring. Qed.

Lemma euclid3_translate (t p q : vec3 R) :
  euclid3 (translate t p) (translate t q) = euclid3 p q.
Proof. unfold euclid3, translate. cbn [x0 x1 x2]. f_equal. ring. Qed.

(** X1.  Both models are symmetric in the probes: exchanging the two
    probes of [GetDistances], or permuting the three probes of
    [GetDistances3], does not change the probability. *)
Theorem probability_symmetric_in_probes (Pr1 Pr2 Pr3 p U : vec3 R) :
  GetDistances Pr1 Pr2 p U = GetDistances Pr2 Pr1 p U
  /\ GetDistances3 Pr1 Pr2 Pr3 p U = GetDistances3 Pr2 Pr1 Pr3 p U
  /\ GetDistances3 Pr1 Pr2 Pr3 p U = GetDistances3 Pr1 Pr3 Pr2 p U
  /\ GetDistances3 Pr1 Pr2 Pr3 p U = GetDistances3 Pr3 Pr2 Pr1 p U.
Proof.
  rewrite !GetDistances_exact, !GetDistances3_exact.
  assert (E2 : value2 Pr1 Pr2 p U = value2 Pr2 Pr1 p U) by (unfold value2; ring).
  assert (E3a : value3 Pr1 Pr2 Pr3 p U = value3 Pr2 Pr1 Pr3 p U)
    by (unfold value3; field).
  assert (E3b : value3 Pr1 Pr2 Pr3 p U = value3 Pr1 Pr3 Pr2 p U)
    by (unfold value3; field).
  assert (E3c : value3 Pr1 Pr2 Pr3 p U = value3 Pr3 Pr2 Pr1 p U)
    by (unfold value3; field).
  rewrite E2. rewrite <- E3a, <- E3b, <- E3c. auto.
Qed.

(** X2.  Both models depend on the relative positions only: moving the
    probes, the sample point and the urethra point by the same vector
    does not change the probability. *)
Theorem probability_translation_invariant (t Pr1 Pr2 Pr3 p U : vec3 R) :
  GetDistances (translate t Pr1) (translate t Pr2) (translate t p) (translate t U)
  = GetDistances Pr1 Pr2 p U
  /\ GetDistances3 (translate t Pr1) (translate t Pr2) (translate t Pr3)
                   (translate t p) (translate t U)
     = GetDistances3 Pr1 Pr2 Pr3 p U.
Proof.
  rewrite !GetDistances_exact, !GetDistances3_exact.
  unfold value2, value3.
  rewrite !plane_offset_translate, !z_offset_translate, !euclid3_translate. auto.
Qed.

(** X3.  With the probes and the sample point fixed, a urethra point
    farther from the sample point never gives a lower probability, in
    either model (in the 2-probe model this includes the step from 0 at
    distance 5). *)
Theorem probability_monotone_in_urethra_distance (Pr1 Pr2 Pr3 p U U' : vec3 R) :
  euclid3 p U <= euclid3 p U' ->
  GetDistances Pr1 Pr2 p U <= GetDistances Pr1 Pr2 p U'
  /\ GetDistances3 Pr1 Pr2 Pr3 p U <= GetDistances3 Pr1 Pr2 Pr3 p U'.
Proof.
  intro Hd. rewrite !GetDistances_exact, !GetDistances3_exact. split.
  - destruct (Rgtb (euclid3 p U) 5) eqn:E1; destruct (Rgtb (euclid3 p U') 5) eqn:E2.
    + apply logistic_increasing. unfold value2. lra.
    + apply Rgtb_true in E1. apply Rgtb_false in E2. lra.
    + left. apply logistic_open_unit.
    + lra.
  - apply logistic_increasing. unfold value3. lra.
Qed.

(** The X3 statement for urethra points at distance 3 and 6 of the
    origin. *)
Lemma probability_monotone_in_urethra_distance_witness :
  euclid3 (Vec3 0 0 0) (Vec3 3 0 0) <= euclid3 (Vec3 0 0 0) (Vec3 6 0 0)
  /\ GetDistances (Vec3 1 1 1) (Vec3 2 2 2) (Vec3 0 0 0) (Vec3 3 0 0)
     <= GetDistances (Vec3 1 1 1) (Vec3 2 2 2) (Vec3 0 0 0) (Vec3 6 0 0).
Proof.
  assert (H : euclid3 (Vec3 0 0 0) (Vec3 3 0 0) <= euclid3 (Vec3 0 0 0) (Vec3 6 0 0)).
  { unfold euclid3. cbn [x0 x1 x2]. apply sqrt_le_1_alt. lra. }
  split; [exact H|].
  apply (probability_monotone_in_urethra_distance
           (Vec3 1 1 1) (Vec3 2 2 2) (Vec3 0 0 0) (Vec3 0 0 0) (Vec3 3 0 0) (Vec3 6 0 0) H).
Defined.

(** X4.  A probability exceeds [THRESHOLD = 0.8] exactly when the linear
    combination [v] exceeds [ln 4] -- and, in the 2-probe model, the
    urethra is farther than 5 from the sample point. *)
Theorem probability_above_threshold (Pr1 Pr2 Pr3 p U : vec3 R) :
  (Rgtb (GetDistances Pr1 Pr2 p U) THRESHOLD = true
   <-> 5 < euclid3 p U /\ ln 4 < value2 Pr1 Pr2 p U)
  /\ (Rgtb (GetDistances3 Pr1 Pr2 Pr3 p U) THRESHOLD = true
      <-> ln 4 < value3 Pr1 Pr2 Pr3 p U).
Proof.
  assert (HT : THRESHOLD = 8 / 10) by reflexivity.
  rewrite !Rgtb_true, HT, GetDistances_exact, GetDistances3_exact.
  split; [|apply logistic_above_threshold].
  destruct (Rgtb (euclid3 p U) 5) eqn:E.
  - apply Rgtb_true in E. rewrite logistic_above_threshold. tauto.
  - apply Rgtb_false in E. split; [lra|]. intros (H & _). lra.
Qed.

(* ================================================================== *)
(** ** The arrays after the scan *)

Lemma prob_at_unit (IjkToRasMatrix : vtkMatrix4x4)
      (probe1 probe2 probe3 UretraMatrix : list (vec3 R)) (nofProbes i j k : Z) :
  0 <= prob_at IjkToRasMatrix probe1 probe2 probe3 UretraMatrix nofProbes i j k < 1.
Proof.
  unfold prob_at. destruct (nofProbes =? 3)%Z.
  - rewrite GetDistances3_exact.
    match goal with |- _ <= logistic ?v < _ => pose proof (logistic_open_unit v) end.
    lra.
  - rewrite GetDistances_exact. destruct (Rgtb _ 5); [|lra].
    match goal with |- _ <= logistic ?v < _ => pose proof (logistic_open_unit v) end.
    lra.
Qed.

Ltac concrete_scan :=
  first [ apply concrete_probe_rows | apply concrete_urethra_rows | reflexivity ].

Section ScanArrays.

Variable IjkToRasMatrix : vtkMatrix4x4.
Variables probe1 probe2 probe3 UretraMatrix : list (vec3 R).
Variable nofProbes : Z.
Variable image : vtkImageData.

Hypothesis probe1_rows : (0 < List.length probe1)%nat.
Hypothesis probe2_rows : (0 < List.length probe2)%nat.
Hypothesis probe3_rows : (0 < List.length probe3)%nat.
Hypothesis urethra_rows : (SLICE_N <= Z.of_nat (List.length UretraMatrix))%Z.
Hypothesis image_dimensions : dimensions image = (192, 168, SLICE_N)%Z.

Local Abbreviation prob :=
  (prob_at IjkToRasMatrix probe1 probe2 probe3 UretraMatrix nofProbes).

Lemma full_scan_result :
  exists st',
    scan IjkToRasMatrix probe1 probe2 probe3 UretraMatrix nofProbes full_extent
         (initial_state image) = Ok st'
    /\ (forall i j k, (0 <= i < 191 /\ 0 <= j < 167 /\ 0 <= k < SLICE_N)%Z ->
          cell (s_img2 st') k j i = 10 * prob i j k
          /\ cell (s_img3 st') k j i = (if Rgtb (prob i j k) THRESHOLD then 1 else 0)
          /\ (in_extent image k j i = true ->
              scalars (s_imageData st') k j i = IZR (py_int (10 * prob i j k))))
    /\ (forall x y z, ~ (0 <= z < 191 /\ 0 <= y < 167 /\ 0 <= x < SLICE_N)%Z ->
          cell (s_img2 st') x y z = 0 /\ cell (s_img3 st') x y z = 0
          /\ scalars (s_imageData st') x y z = scalars image x y z)
    /\ (forall x y z, in_extent image x y z = false ->
          scalars (s_imageData st') x y z = scalars image x y z).
Proof.
  destruct (full_scan_completes IjkToRasMatrix probe1 probe2 probe3 UretraMatrix
              nofProbes image probe1_rows probe2_rows probe3_rows urethra_rows
              image_dimensions) as (st' & E & _).
  destruct (full_scan_cells IjkToRasMatrix probe1 probe2 probe3 UretraMatrix
              nofProbes image probe1_rows probe2_rows probe3_rows urethra_rows
              image_dimensions st' E) as (Hin & Hout & Hext & _).
  exists st'. split; [exact E|]. split; [|split; [|exact Hext]].
  - intros i j k Hb. apply Hin. apply In_scanned_voxels. cbn. exact Hb.
  - intros x y z Hb. apply Hout. intro Hv. apply Hb.
    apply In_scanned_voxels in Hv. cbn in Hv. exact Hv.
Qed.


(** X6.  After the scan the mask is the raw-probability array cut at 8:
    on every cell, scanned or not, the mask holds 1 if the raw value
    exceeds 8 and 0 otherwise. *)
Theorem mask_is_raw_probability_above_8 :
  exists st',
    scan IjkToRasMatrix probe1 probe2 probe3 UretraMatrix nofProbes full_extent
         (initial_state image) = Ok st'
    /\ forall k j i,
         cell (s_img3 st') k j i = (if Rgtb (cell (s_img2 st') k j i) 8 then 1 else 0).
Proof.
  destruct full_scan_result as (st' & E & Hin & Hout & _).
  exists st'. split; [exact E|]. intros k j i.
  assert (HT : THRESHOLD = 8 / 10) by reflexivity.
  destruct (Z_lt_dec i 0); [|destruct (Z_lt_dec i 191);
    [destruct (Z_lt_dec j 0); [|destruct (Z_lt_dec j 167);
      [destruct (Z_lt_dec k 0); [|destruct (Z_lt_dec k SLICE_N)]|]]|]];
    try (destruct (Hout k j i) as (H2 & H3 & _); [lia|];
         rewrite H2, H3;
         replace (Rgtb 0 8) with false by (symmetry; apply Rgtb_false; lra);
         reflexivity).
  destruct (Hin i j k) as (H2 & H3 & _); [lia|]. rewrite H2, H3.
  destruct (Rgtb (prob i j k) THRESHOLD) eqn:G.
  - apply Rgtb_true in G. rewrite HT in G.
    replace (Rgtb (10 * prob i j k) 8) with true; [reflexivity|].
    symmetry. apply Rgtb_true. lra.
  - apply Rgtb_false in G. rewrite HT in G.
    replace (Rgtb (10 * prob i j k) 8) with false; [reflexivity|].
    symmetry. apply Rgtb_false. lra.
Qed.



End ScanArrays.


(** The X6 statement at the concrete scan. *)
Lemma mask_is_raw_probability_above_8_witness :
  ((0 < List.length probes_at_origin)%nat
   /\ (SLICE_N <= Z.of_nat (List.length urethra_far))%Z
   /\ dimensions blank_image = (192, 168, SLICE_N)%Z)
  /\ exists st',
       scan identity4 probes_at_origin probes_at_origin probes_at_origin urethra_far 2
            full_extent (initial_state blank_image) = Ok st'
       /\ forall k j i,
            cell (s_img3 st') k j i
            = (if Rgtb (cell (s_img2 st') k j i) 8 then 1 else 0).
Proof.
  split; [repeat split; concrete_scan|].
  apply (mask_is_raw_probability_above_8 identity4 probes_at_origin probes_at_origin
           probes_at_origin urethra_far 2 blank_image); concrete_scan.
Defined.



(* ================================================================== *)
(** ** The log of probabilities [probs] *)

Lemma nth_flat_map_blocks {A B : Type} (g : A -> list B) (l : list A) (c : nat)
      (da : A) (d : B) :
  (forall a, List.length (g a) = c) ->
  forall q r, (q < List.length l)%nat -> (r < c)%nat ->
    nth (q * c + r) (flat_map g l) d = nth r (g (nth q l da)) d.
Proof.
  intro Hc. induction l as [|a l IH]; intros q r Hq Hr; cbn [List.length] in Hq; [lia|].
  cbn [flat_map]. destruct q as [|q].
  - cbn [Nat.mul Nat.add nth]. apply app_nth1. rewrite Hc. exact Hr.
  - rewrite app_nth2 by (rewrite Hc; cbn [Nat.mul]; lia).
    rewrite Hc. replace (S q * c + r - c)%nat with (q * c + r)%nat by (cbn [Nat.mul]; lia).
    cbn [nth]. apply IH; lia.
Qed.

Lemma nth_scanned_voxels_full (i j k : Z) :
  (0 <= i < 191 /\ 0 <= j < 167 /\ 0 <= k < 40)%Z ->
  nth (Z.to_nat (scan_position i j k)) (scanned_voxels full_extent) (0, 0, 0)%Z
  = (i, j, k).
Proof.
  intros (Hi & Hj & Hk). unfold scanned_voxels, scan_position.
  cbn [nth full_extent]. unfold SLICE_N.
  replace (Z.to_nat ((i * 167 + j) * 40 + k))
    with (Z.to_nat i * (167 * 40) + (Z.to_nat j * 40 + Z.to_nat k))%nat by lia.
  rewrite (nth_flat_map_blocks _ _ (167 * 40)%nat 0%Z).
  - rewrite nth_py_range by lia.
    rewrite (nth_flat_map_blocks _ _ 40%nat 0%Z).
    + rewrite nth_py_range by lia.
      rewrite (nth_map_in_range _ _ _ _ 0%Z) by (rewrite length_py_range; lia).
      rewrite nth_py_range by lia. f_equal; [f_equal|]; lia.
    + intro a. rewrite length_map, length_py_range. reflexivity.
    + rewrite length_py_range. lia.
    + lia.
  - intro a. rewrite (flat_map_constant_length (c := 40%nat)).
    + rewrite length_py_range. reflexivity.
    + intros b _. rewrite length_map, length_py_range. reflexivity.
  - rewrite length_py_range. lia.
  - lia.
Qed.

Section ScanProbs.

Variable IjkToRasMatrix : vtkMatrix4x4.
Variables probe1 probe2 probe3 UretraMatrix : list (vec3 R).
Variable nofProbes : Z.
Variable image : vtkImageData.

Hypothesis probe1_rows : (0 < List.length probe1)%nat.
Hypothesis probe2_rows : (0 < List.length probe2)%nat.
Hypothesis probe3_rows : (0 < List.length probe3)%nat.
Hypothesis urethra_rows : (SLICE_N <= Z.of_nat (List.length UretraMatrix))%Z.
Hypothesis image_dimensions : dimensions image = (192, 168, SLICE_N)%Z.

Local Abbreviation step :=
  (scan_voxel IjkToRasMatrix probe1 probe2 probe3 UretraMatrix nofProbes).
Local Abbreviation prob :=
  (prob_at IjkToRasMatrix probe1 probe2 probe3 UretraMatrix nofProbes).

Lemma scan_voxel_probs (st : scan_state) (i j k : Z) :
  declared_shapes st -> voxel_in_grid (i, j, k) -> (0 <= s_f st < 7000000)%Z ->
  exists st',
    step st (i, j, k) = Ok st'
    /\ declared_shapes st'
    /\ s_f st' = (s_f st + 1)%Z
    /\ forall x y z,
         cell (s_probs st') x y z
         = if same_index x y z (s_f st) 0 0 then prob i j k
           else cell (s_probs st) x y z.
Proof.
  intros Hs Hv Hf.
  destruct (scan_voxel_in_grid IjkToRasMatrix probe1 probe2 probe3 UretraMatrix
              nofProbes probe1_rows probe2_rows probe3_rows urethra_rows
              st i j k Hs Hv Hf) as (st' & E & Hs' & Hf' & _).
  exists st'. split; [exact E|]. split; [exact Hs'|]. split; [exact Hf'|].
  destruct Hs as (Hd & H2 & H3 & Hp). destruct Hv as (Hi & Hj & Hk).
  unfold scan_voxel in E. rewrite voxel_prob_in_range in E by assumption.
  cbn [bind] in E.
  rewrite (@setitem3_in_range _ _ _ _ k j i _ H2) in E by assumption. cbn [bind] in E.
  rewrite (@setitem3_in_range _ _ _ _ (s_f st) 0 0 _ Hp) in E by lia. cbn [bind] in E.
  destruct (Rgtb (prob i j k) THRESHOLD).
  - rewrite (@setitem3_in_range _ _ _ _ k j i _ H3) in E by assumption.
    cbn [bind] in E. injection E as <-. reflexivity.
  - cbn [bind] in E. injection E as <-. reflexivity.
Qed.

Lemma scan_list_probs (l : list (Z * Z * Z)) (st st' : scan_state) :
  declared_shapes st -> Forall voxel_in_grid l ->
  (0 <= s_f st)%Z -> (s_f st + Z.of_nat (List.length l) <= 7000000)%Z ->
  foldM step l st = Ok st' ->
  (forall n i j k, (n < List.length l)%nat -> nth n l (0, 0, 0)%Z = (i, j, k) ->
     cell (s_probs st') (s_f st + Z.of_nat n) 0 0 = prob i j k)
  /\ (forall x y z,
        ~ (s_f st <= x < s_f st + Z.of_nat (List.length l) /\ y = 0 /\ z = 0)%Z ->
        cell (s_probs st') x y z = cell (s_probs st) x y z).
Proof.
  revert st. induction l as [|[[i0 j0] k0] l IH]; intros st Hs Hl Hf0 Hf E.
  - cbn in E. injection E as <-. split; [intros n i j k Hn; cbn in Hn; lia|auto].
  - inversion Hl as [|? ? Hv Hl']; subst. cbn [List.length] in Hf.
    destruct (scan_voxel_probs st i0 j0 k0 Hs Hv) as (st1 & E1 & Hs1 & Hf1 & Hc);
      [lia|].
    cbn [foldM] in E. rewrite E1 in E. cbn [bind] in E.
    destruct (IH st1 Hs1 Hl' ltac:(lia) ltac:(lia) E) as (Hin & Hout).
    split.
    + intros [|n] i j k Hn Hnth; cbn [List.length nth] in Hn, Hnth.
      * injection Hnth as <- <- <-.
        rewrite Hout by lia. rewrite Hc.
        replace (s_f st + Z.of_nat 0)%Z with (s_f st) by lia.
        rewrite same_index_refl. reflexivity.
      * replace (s_f st + Z.of_nat (S n))%Z with (s_f st1 + Z.of_nat n)%Z by lia.
        apply Hin; [lia|exact Hnth].
    + intros x y z Hn. cbn [List.length] in Hn.
      rewrite Hout by lia. rewrite Hc.
      replace (same_index x y z (s_f st) 0 0) with false; [reflexivity|].
      symmetry. apply same_index_false. intros (-> & -> & ->). apply Hn. lia.
Qed.


End ScanProbs.


(* ================================================================== *)
(** ** [run]: what it emits, and where it stops *)

Lemma getNode_none (name : string) (w : World) :
  no_node_named name w -> getNode name w = (w, Raise MRMLNodeNotFoundException).
Proof.
  intro H. unfold getNode. f_equal.
  assert (Hf : find (fun n => String.eqb (GetName n) name) (rev (mrmlScene w)) = None).
  { assert (Hr : forall n, In n (rev (mrmlScene w)) -> String.eqb (GetName n) name = false)
      by (intros n Hn; apply H; apply in_rev; exact Hn).
    induction (rev (mrmlScene w)) as [|a l IH]; [reflexivity|].
    cbn [find]. rewrite (Hr a) by (left; reflexivity).
    apply IH. intros n Hn. apply Hr. right. exact Hn. }
  rewrite Hf. reflexivity.
Qed.

Lemma lift_raise {A : Type} (r : result A) (e : exception) (w : World) :
  r = Raise e -> lift r w = (w, Raise e).
Proof. intros ->. reflexivity. Qed.

Lemma strictly_decreasing_not_increasing (z : list R) :
  (2 <= List.length z)%nat -> strictly_decreasing z -> ~ strictly_increasing z.
Proof.
  intros Hn Hd Hi.
  pose proof (Hd 0%nat ltac:(lia)). pose proof (Hi 0%nat ltac:(lia)). lra.
Qed.

Section RunOutcomes.

Variable natural_spline : list R -> list R -> R -> R.
Variable inputVolume : inputVolumeNode.
Variable imageThreshold : R.
Variable enableScreenshots : Z.
Variable w : World.

Local Abbreviation the_run :=
  (run natural_spline inputVolume imageThreshold enableScreenshots w).


(** X11.  When the directory of the debug table does not exist, [run]
    raises [IOError] at line 454 -- after the resampled 'urethra' node has
    been added to the scene, which stays there; no volume is emitted. *)
Theorem run_without_table_directory
    (urethra_points IntraOpTargets : node) (markers targets : list (vec3 R)) :
  getNode "urethra_points" w = (w, Ok urethra_points) ->
  fiducials_of urethra_points = Ok markers ->
  (2 <= List.length markers)%nat ->
  strictly_increasing (map x2 markers) ->
  getNode "IntraOpTargets" w = (w, Ok IntraOpTargets) ->
  fiducials_of IntraOpTargets = Ok targets ->
  cases_dir_exists w = false ->
  exists curve w',
    the_run = (w', Raise IOError)
    /\ urethra_curve natural_spline markers = Ok curve
    /\ mrmlScene w' = mrmlScene w ++ [vtkMRMLMarkupsFiducialNode "urethra" curve]
    /\ result_table w' = result_table w.
Proof.
  intros Hn1 Hf1 Hm2 Hinc Hn2 Hf2 Hdir.
  destruct (urethra_curve_points natural_spline markers Hm2 Hinc)
    as (curve & Hcurve & Hlen & _).
  destruct (fill_rows_ok (zero_rows 56) curve) as (UM & HUM & _).
  { rewrite Hlen. unfold zero_rows. rewrite repeat_length. lia. }
  set (w1 := fst (AddNode (vtkMRMLMarkupsFiducialNode "urethra" curve) w)).
  destruct (load_probe3_total (List.length targets) (zero_rows 2) w1)
    as (probe3 & nofProbes & Hp3 & _).
  exists curve, w1. split; [|split; [exact Hcurve|split; reflexivity]].
  unfold run.
  rewrite (bindM_ok _ _ _ _ _ Hn1).
  rewrite (bindM_ok _ _ _ _ _ (lift_ok _ _ w Hf1)).
  rewrite (bindM_ok _ _ _ _ _ (lift_ok _ _ w Hcurve)).
  rewrite (bindM_ok (AddNode _) _ w w1 tt eq_refl).
  rewrite (bindM_ok _ _ _ _ _
             (getNode_added (vtkMRMLMarkupsFiducialNode "urethra" curve) w)).
  fold w1.
  rewrite (bindM_ok _ _ _ _ _
             (lift_ok _ _ w1
                (eq_refl : fiducials_of (vtkMRMLMarkupsFiducialNode "urethra" curve)
                           = Ok curve))).
  rewrite (bindM_ok _ _ _ _ _ (lift_ok _ _ w1 HUM)).
  rewrite (bindM_ok _ _ _ _ _
             (getNode_other "IntraOpTargets" (vtkMRMLMarkupsFiducialNode "urethra" curve)
                            IntraOpTargets w eq_refl Hn2)).
  fold w1.
  rewrite (bindM_ok _ _ _ _ _ (lift_ok _ _ w1 Hf2)).
  rewrite (bindM_ok (lift (setitem (zero_rows 2) 0 _)) _ w1 w1
                    [nth 0 targets (Vec3 0 0 0); Vec3 0 0 0] eq_refl).
  rewrite (bindM_ok (lift (setitem (zero_rows 2) 0 _)) _ w1 w1
                    [nth 1 targets (nth 0 targets (Vec3 0 0 0)); Vec3 0 0 0] eq_refl).
  rewrite (bindM_ok _ _ _ _ _ Hp3). cbn [fst snd].
  rewrite (bindM_ok (lift (getitem [nth 0 targets (Vec3 0 0 0); Vec3 0 0 0] 0)) _ w1 w1
                    (nth 0 targets (Vec3 0 0 0)) eq_refl).
  rewrite (bindM_ok (lift (getitem [nth 1 targets (nth 0 targets (Vec3 0 0 0));
                                    Vec3 0 0 0] 0)) _ w1 w1
                    (nth 1 targets (nth 0 targets (Vec3 0 0 0))) eq_refl).
  apply bindM_raise. unfold open_result_table.
  change (cases_dir_exists w1) with (cases_dir_exists w). rewrite Hdir. reflexivity.
Qed.

(** X12.  When the scene has no node 'IntraOpTargets', [run] raises the
    lookup's exception at line 407 -- again after the 'urethra' node has
    been added, which is all it leaves behind. *)
Theorem run_without_probe_list
    (urethra_points : node) (markers : list (vec3 R)) :
  getNode "urethra_points" w = (w, Ok urethra_points) ->
  fiducials_of urethra_points = Ok markers ->
  (2 <= List.length markers)%nat ->
  strictly_increasing (map x2 markers) ->
  no_node_named "IntraOpTargets" w ->
  exists curve w',
    the_run = (w', Raise MRMLNodeNotFoundException)
    /\ urethra_curve natural_spline markers = Ok curve
    /\ mrmlScene w' = mrmlScene w ++ [vtkMRMLMarkupsFiducialNode "urethra" curve]
    /\ result_table w' = result_table w.
Proof.
  intros Hn1 Hf1 Hm2 Hinc Hnone.
  destruct (urethra_curve_points natural_spline markers Hm2 Hinc)
    as (curve & Hcurve & Hlen & _).
  destruct (fill_rows_ok (zero_rows 56) curve) as (UM & HUM & _).
  { rewrite Hlen. unfold zero_rows. rewrite repeat_length. lia. }
  set (w1 := fst (AddNode (vtkMRMLMarkupsFiducialNode "urethra" curve) w)).
  exists curve, w1. split; [|split; [exact Hcurve|split; reflexivity]].
  unfold run.
  rewrite (bindM_ok _ _ _ _ _ Hn1).
  rewrite (bindM_ok _ _ _ _ _ (lift_ok _ _ w Hf1)).
  rewrite (bindM_ok _ _ _ _ _ (lift_ok _ _ w Hcurve)).
  rewrite (bindM_ok (AddNode _) _ w w1 tt eq_refl).
  rewrite (bindM_ok _ _ _ _ _
             (getNode_added (vtkMRMLMarkupsFiducialNode "urethra" curve) w)).
  fold w1.
  rewrite (bindM_ok _ _ _ _ _
             (lift_ok _ _ w1
                (eq_refl : fiducials_of (vtkMRMLMarkupsFiducialNode "urethra" curve)
                           = Ok curve))).
  rewrite (bindM_ok _ _ _ _ _ (lift_ok _ _ w1 HUM)).
  apply bindM_raise. unfold w1.
  rewrite getNode_eq, getNode_after_AddNode.
  change (String.eqb (GetName (vtkMRMLMarkupsFiducialNode "urethra" curve))
                     "IntraOpTargets") with false.
  cbv iota. rewrite (getNode_none _ _ Hnone). reflexivity.
Qed.

(** X13.  When the scene has no node 'urethra_points', or the node of that
    name is not a fiducial list, [run] fails at its first step and leaves
    the world exactly as it was. *)
Theorem run_without_urethra_points :
  (no_node_named "urethra_points" w ->
   the_run = (w, Raise MRMLNodeNotFoundException))
  /\ (forall nd, getNode "urethra_points" w = (w, Ok nd) ->
        fiducials_of nd = Raise AttributeError ->
        the_run = (w, Raise AttributeError)).
Proof.
  split.
  - intro Hnone. unfold run. apply bindM_raise. apply getNode_none. exact Hnone.
  - intros nd Hn Hf. unfold run. rewrite (bindM_ok _ _ _ _ _ Hn).
    apply bindM_raise. apply lift_raise. exact Hf.
Qed.

(** X14.  Markers listed from the other end -- at least two, with
    strictly decreasing z -- are refused like degenerate ones: [run] raises
    [ValueError] and leaves the world as it was.  The order of the markers
    matters. *)
Theorem run_refuses_decreasing_markers (markers : list (vec3 R)) :
  getNode "urethra_points" w
  = (w, Ok (vtkMRMLMarkupsFiducialNode "urethra_points" markers)) ->
  (2 <= List.length markers)%nat ->
  strictly_decreasing (map x2 markers) ->
  the_run = (w, Raise ValueError).
Proof.
  intros Hn Hm Hd. unfold run. rewrite (bindM_ok _ _ _ _ _ Hn).
  rewrite (bindM_ok _ _ _ _ _
             (lift_ok _ _ w
                (eq_refl : fiducials_of (vtkMRMLMarkupsFiducialNode "urethra_points" markers)
                           = Ok markers))).
  apply bindM_raise. apply lift_raise. apply urethra_curve_invalid. right.
  apply strictly_decreasing_not_increasing; [rewrite length_map; exact Hm|exact Hd].
Qed.

End RunOutcomes.

Lemma markers_example_increasing : strictly_increasing (map x2 markers_example).
Proof. intros [|[|i]] Hi; cbn in Hi; try lia. cbn. lra. Qed.


(** The X11 statement on the example scene without the directory. *)
Lemma run_without_table_directory_witness :
  ((2 <= List.length markers_example)%nat
   /\ strictly_increasing (map x2 markers_example)
   /\ cases_dir_exists world_no_cases_dir = false)
  /\ exists curve w',
       run line_through volume_example (5 / 10) 0 world_no_cases_dir
       = (w', Raise IOError)
       /\ mrmlScene w'
          = mrmlScene world_no_cases_dir ++ [vtkMRMLMarkupsFiducialNode "urethra" curve].
Proof.
  split.
  - split; [cbn; lia|]. split; [exact markers_example_increasing|reflexivity].
  - destruct (run_without_table_directory line_through volume_example (5 / 10) 0
                world_no_cases_dir
                (vtkMRMLMarkupsFiducialNode "urethra_points" markers_example)
                (vtkMRMLMarkupsFiducialNode "IntraOpTargets" probes_example)
                markers_example probes_example)
      as (curve & w' & Hrun & _ & Hscene & _).
    + reflexivity.
    + reflexivity.
    + cbn. lia.
    + exact markers_example_increasing.
    + reflexivity.
    + reflexivity.
    + reflexivity.
    + exists curve, w'. split; assumption.
Defined.

(** The X12 statement on a scene without a probe list. *)
Lemma run_without_probe_list_witness :
  ((2 <= List.length markers_example)%nat
   /\ strictly_increasing (map x2 markers_example)
   /\ no_node_named "IntraOpTargets" world_no_targets)
  /\ exists curve w',
       run line_through volume_example (5 / 10) 0 world_no_targets
       = (w', Raise MRMLNodeNotFoundException)
       /\ mrmlScene w'
          = mrmlScene world_no_targets ++ [vtkMRMLMarkupsFiducialNode "urethra" curve].
Proof.
  assert (Hnone : no_node_named "IntraOpTargets" world_no_targets).
  { intros n [<-|[]]. reflexivity. }
  split.
  - split; [cbn; lia|]. split; [exact markers_example_increasing|exact Hnone].
  - destruct (run_without_probe_list line_through volume_example (5 / 10) 0
                world_no_targets
                (vtkMRMLMarkupsFiducialNode "urethra_points" markers_example)
                markers_example)
      as (curve & w' & Hrun & _ & Hscene & _).
    + reflexivity.
    + reflexivity.
    + cbn. lia.
    + exact markers_example_increasing.
    + exact Hnone.
    + exists curve, w'. split; assumption.
Defined.

(** The X13 statement on an empty scene. *)
Lemma run_without_urethra_points_witness :
  no_node_named "urethra_points" world_empty
  /\ run line_through volume_example (5 / 10) 0 world_empty
     = (world_empty, Raise MRMLNodeNotFoundException).
Proof.
  assert (Hnone : no_node_named "urethra_points" world_empty) by (intros n []).
  split; [exact Hnone|].
  apply (proj1 (run_without_urethra_points line_through volume_example (5 / 10) 0
                  world_empty)).
  exact Hnone.
Defined.

(** The X14 statement on the example scene with the markers reversed. *)
Lemma run_refuses_decreasing_markers_witness :
  ((2 <= List.length (rev markers_example))%nat
   /\ strictly_decreasing (map x2 (rev markers_example)))
  /\ run line_through volume_example (5 / 10) 0 world_reversed
     = (world_reversed, Raise ValueError).
Proof.
  assert (Hd : strictly_decreasing (map x2 (rev markers_example))).
  { intros [|[|i]] Hi; cbn in Hi; try lia. cbn. lra. }
  split; [split; [cbn; lia|exact Hd]|].
  apply (run_refuses_decreasing_markers line_through volume_example (5 / 10) 0
           world_reversed (rev markers_example)).
  - reflexivity.
  - cbn. lia.
  - exact Hd.
Defined.

(* ================================================================== *)
(** ** The optional third probe (lines 433-444) *)

(** X15.  The 3-probe model is selected exactly when a node 'probe3' is
    found and 'IntraOpTargets' holds at most 2 fiducials: the loop that
    reads 'probe3' runs once per fiducial of 'IntraOpTargets', and its
    third pass overruns the 2-row matrix [probe3], which the [except]
    clause turns into the 2-probe mode.  Without a node 'probe3' the mode
    is 2 and [probe3] stays zero. *)
Theorem probe_mode_selection (numFids4 : nat) (w : World) :
  (no_node_named "probe3" w ->
   load_probe3 numFids4 (zero_rows 2) w = (w, Ok (zero_rows 2, 2%Z)))
  /\ (forall name fids4,
        getNode "probe3" w = (w, Ok (vtkMRMLMarkupsFiducialNode name fids4)) ->
        exists probe3,
          load_probe3 numFids4 (zero_rows 2) w
          = (w, Ok (probe3, if (numFids4 <=? 2)%nat then 3%Z else 2%Z))).
Proof.
  split.
  - intro Hnone. unfold load_probe3. rewrite (getNode_none _ _ Hnone). reflexivity.
  - intros name fids4 Hn. unfold load_probe3. rewrite Hn.
    destruct numFids4 as [|[|[|n]]]; cbn; eexists; reflexivity.
Qed.

(** X16.  In the 3-probe mode with 1 or 2 fiducials in 'IntraOpTargets',
    the third probe tip is the first fiducial of 'probe3' with its z
    lowered by 10 (the origin lowered by 10 when 'probe3' holds no
    fiducial); with no fiducial in 'IntraOpTargets' the mode is still 3
    and the third probe tip is the origin. *)
Theorem third_probe_lowered (numFids4 : nat) (w : World)
        (name : string) (fids4 : list (vec3 R)) :
  getNode "probe3" w = (w, Ok (vtkMRMLMarkupsFiducialNode name fids4)) ->
  (numFids4 <= 2)%nat ->
  exists probe3,
    load_probe3 numFids4 (zero_rows 2) w = (w, Ok (probe3, 3%Z))
    /\ getitem probe3 0
       = Ok (if (numFids4 =? 0)%nat then Vec3 0 0 0
             else lowered (nth 0 fids4 (Vec3 0 0 0))).
Proof.
  intros Hn Hle. unfold load_probe3. rewrite Hn.
  destruct numFids4 as [|[|[|n]]]; [| | |lia]; cbn; eexists; split; reflexivity.
Qed.

(** The X15 statement on the scene with a third probe, whose
    'IntraOpTargets' holds 2 fiducials. *)
Lemma probe_mode_selection_witness :
  getNode "probe3" world_three_probes
  = (world_three_probes, Ok (vtkMRMLMarkupsFiducialNode "probe3" [Vec3 105 95 21]))
  /\ (exists probe3,
        load_probe3 2 (zero_rows 2) world_three_probes
        = (world_three_probes, Ok (probe3, 3%Z)))
  /\ (exists probe3,
        load_probe3 3 (zero_rows 2) world_three_probes
        = (world_three_probes, Ok (probe3, 2%Z))).
Proof.
  split; [reflexivity|]. split.
  - apply (proj2 (probe_mode_selection 2 world_three_probes) "probe3"%string [Vec3 105 95 21]).
    reflexivity.
  - apply (proj2 (probe_mode_selection 3 world_three_probes) "probe3"%string [Vec3 105 95 21]).
    reflexivity.
Defined.

(** The X16 statement on the scene with a third probe at (105, 95, 21):
    the tip used is (105, 95, 11). *)
Lemma third_probe_lowered_witness :
  (getNode "probe3" world_three_probes
   = (world_three_probes, Ok (vtkMRMLMarkupsFiducialNode "probe3" [Vec3 105 95 21]))
   /\ (2 <= 2)%nat)
  /\ exists probe3,
       load_probe3 2 (zero_rows 2) world_three_probes
       = (world_three_probes, Ok (probe3, 3%Z))
       /\ getitem probe3 0 = Ok (Vec3 105 95 (21 - 10)).
Proof.
  split; [split; [reflexivity|lia]|].
  apply (third_probe_lowered 2 world_three_probes "probe3"%string [Vec3 105 95 21]).
  - reflexivity.
  - lia.
Defined.

(* ================================================================== *)
(** ** [getLimits]: when it raises *)

Lemma int64_of_float_overflow (x : R) :
  IZR (2 ^ 63) <= x \/ x <= IZR (- 2 ^ 63 - 1) ->
  int64_of_float x = Raise OverflowError.
Proof.
  intro H. unfold int64_of_float, py_int.
  assert (HB : IZR (2 ^ 63) = 9223372036854775808) by reflexivity.
  assert (HB' : IZR (- 2 ^ 63 - 1) = -9223372036854775809) by reflexivity.
  destruct H as [H|H].
  - destruct (Rle_dec 0 x) as [_|Hn]; [|lra].
    pose proof (Zfloor_lub _ _ H) as Hz.
    replace (Zfloor x <? 2 ^ 63)%Z with false by (symmetry; apply Z.ltb_ge; lia).
    rewrite andb_false_r. reflexivity.
  - destruct (Rle_dec 0 x) as [Hp|_]; [lra|].
    pose proof (Zceil_le _ _ H) as Hz.
    rewrite (Zceil_eq (- 2 ^ 63 - 1) (IZR (- 2 ^ 63 - 1))) in Hz by lra.
    replace (- 2 ^ 63 <=? Zceil x)%Z with false by (symmetry; apply Z.leb_gt; lia).
    reflexivity.
Qed.

Lemma int64_of_float_cases (x : R) :
  (exists z, int64_of_float x = Ok z) \/ int64_of_float x = Raise OverflowError.
Proof.
  unfold int64_of_float. destruct (_ && _)%bool; [left; eexists; reflexivity|right; reflexivity].
Qed.

Lemma mapM_raise {A B : Type} (f : A -> result B) (l : list A) (e : exception) :
  (forall a, (exists b, f a = Ok b) \/ f a = Raise e) ->
  (exists a, In a l /\ f a = Raise e) ->
  mapM f l = Raise e.
Proof.
  intros Hf (a & Ha & Hr). induction l as [|a0 l IH]; [contradiction|].
  cbn [mapM]. destruct (Hf a0) as [(b & Hb)|Hb]; rewrite Hb; cbn [bind]; [|reflexivity].
  destruct Ha as [->|Ha]; [congruence|]. rewrite (IH Ha). reflexivity.
Qed.

(** X17.  [getLimits] raises [ValueError] on an empty probe matrix (numpy
    has no minimum of an empty array) and [OverflowError] when an index
    coordinate of some probe, truncated, does not fit a 64-bit integer;
    in neither case are the overwritten bounds returned. *)
Theorem getLimits_raises (probes : list (vec3 R)) (rasToijkMatrix : vtkMatrix4x4) :
  getLimits [] rasToijkMatrix = Raise ValueError
  /\ ((exists pr c, In pr probes
         /\ In c [h0 (index_point rasToijkMatrix pr); h1 (index_point rasToijkMatrix pr);
                  h2 (index_point rasToijkMatrix pr)]
         /\ (IZR (2 ^ 63) <= c \/ c <= IZR (- 2 ^ 63 - 1))) ->
      getLimits probes rasToijkMatrix = Raise OverflowError).
Proof.
  split; [reflexivity|].
  intros (pr & c & Hpr & Hc & Hover).
  unfold getLimits, probe_indices.
  rewrite (mapM_raise _ probes OverflowError); [reflexivity| |].
  - intro a.
    destruct (int64_of_float_cases (h0 (MultiplyDoublePoint rasToijkMatrix
                                          (Vec4 (x0 a) (x1 a) (x2 a) 1))))
      as [(z0 & ->)| ->]; cbn [bind]; [|right; reflexivity].
    destruct (int64_of_float_cases (h1 (MultiplyDoublePoint rasToijkMatrix
                                          (Vec4 (x0 a) (x1 a) (x2 a) 1))))
      as [(z1 & ->)| ->]; cbn [bind]; [|right; reflexivity].
    destruct (int64_of_float_cases (h2 (MultiplyDoublePoint rasToijkMatrix
                                          (Vec4 (x0 a) (x1 a) (x2 a) 1))))
      as [(z2 & ->)| ->]; cbn [bind]; [left; eexists; reflexivity|right; reflexivity].
  - exists pr. split; [exact Hpr|]. fold (index_point rasToijkMatrix pr).
    pose proof (int64_of_float_overflow c Hover) as Hraise.
    destruct Hc as [<-|[<-|[<-|[]]]].
    + rewrite Hraise. reflexivity.
    + destruct (int64_of_float_cases (h0 (index_point rasToijkMatrix pr)))
        as [(z0 & ->)| ->]; cbn [bind]; [|reflexivity].
      rewrite Hraise. reflexivity.
    + destruct (int64_of_float_cases (h0 (index_point rasToijkMatrix pr)))
        as [(z0 & ->)| ->]; cbn [bind]; [|reflexivity].
      destruct (int64_of_float_cases (h1 (index_point rasToijkMatrix pr)))
        as [(z1 & ->)| ->]; cbn [bind]; [|reflexivity].
      rewrite Hraise. reflexivity.
Qed.

(** The X17 statement for a probe whose first index coordinate is 2^63. *)
Lemma getLimits_raises_witness :
  getLimits [] identity4 = Raise ValueError
  /\ getLimits [Vec3 100 100 10; Vec3 9223372036854775808 0 0] identity4
     = Raise OverflowError.
Proof.
  destruct (getLimits_raises [Vec3 100 100 10; Vec3 9223372036854775808 0 0] identity4)
    as (He & Ho).
  split; [exact He|]. apply Ho.
  exists (Vec3 9223372036854775808 0 0), 9223372036854775808.
  split; [right; left; reflexivity|].
  split.
  - left. rewrite index_point_identity. reflexivity.
  - left. right. reflexivity.
Defined.

(* ================================================================== *)
(** ** The validation helpers *)

Lemma id_eqb_sym (a b : option string) : id_eqb a b = id_eqb b a.
Proof. destruct a, b; cbn; auto. apply String.eqb_sym. Qed.

Lemma id_eqb_eq (a b : option string) : id_eqb a b = true <-> a = b.
Proof.
  destruct a as [s|], b as [t|]; cbn; try (split; congruence).
  rewrite String.eqb_eq. split; congruence.
Qed.

(** X18.  [isValidInputOutputData] accepts a pair of nodes exactly when
    both are given and their IDs differ; so it does not depend on the
    order of its two arguments, never accepts a node as its own output,
    and rejects any two nodes that have not been added to a scene, whose
    IDs are both [None]. *)
Theorem isValidInputOutputData_symmetric (a b : option volumeNodeRef) :
  isValidInputOutputData a b = isValidInputOutputData b a
  /\ isValidInputOutputData a a = false
  /\ (isValidInputOutputData a b = true
      <-> exists i o, a = Some i /\ b = Some o /\ GetID i <> GetID o)
  /\ (forall i o, GetID i = None -> GetID o = None ->
        isValidInputOutputData (Some i) (Some o) = false).
Proof.
  split; [|split; [|split]].
  - destruct a as [i|], b as [o|]; cbn; auto. rewrite id_eqb_sym. reflexivity.
  - destruct a as [i|]; cbn; auto.
    replace (id_eqb (GetID i) (GetID i)) with true; [reflexivity|].
    symmetry. apply id_eqb_eq. reflexivity.
  - destruct a as [i|], b as [o|]; cbn;
      try (split; [discriminate|intros (i' & o' & H1 & H2 & _); discriminate]).
    destruct (id_eqb (GetID i) (GetID o)) eqn:E.
    + apply id_eqb_eq in E. split; [discriminate|].
      intros (i' & o' & H1 & H2 & Hne). injection H1 as <-. injection H2 as <-.
      contradiction.
    + split; [|reflexivity]. intros _. exists i, o. repeat split.
      intro Heq. apply id_eqb_eq in Heq. congruence.
  - intros i o Hi Ho. cbn. rewrite Hi, Ho. reflexivity.
Qed.

(* ================================================================== *)
(** ** The ends of the urethra curve *)

Section CurveEnds.

Variable natural_spline : list R -> list R -> R -> R.

(** X19.  Since the spline passes through its knots, the resampled
    urethra starts exactly at the first marker and ends exactly at the
    last one. *)
Theorem urethra_curve_ends_at_markers (markers : list (vec3 R)) :
  (2 <= List.length markers)%nat ->
  strictly_increasing (map x2 markers) ->
  (forall i, (i < List.length markers)%nat ->
     natural_spline (map x2 markers) (map x0 markers) (nth i (map x2 markers) 0)
     = nth i (map x0 markers) 0
     /\ natural_spline (map x2 markers) (map x1 markers) (nth i (map x2 markers) 0)
        = nth i (map x1 markers) 0) ->
  exists curve,
    urethra_curve natural_spline markers = Ok curve
    /\ nth 0 curve (Vec3 0 0 0) = nth 0 markers (Vec3 0 0 0)
    /\ nth 39 curve (Vec3 0 0 0) = nth (List.length markers - 1) markers (Vec3 0 0 0).
Proof.
  intros Hn Hinc Hknots.
  destruct (urethra_curve_points natural_spline markers Hn Hinc)
    as (curve & Hcurve & _ & Hpt).
  exists curve. split; [exact Hcurve|].
  assert (Hcoord : forall i, (i < List.length markers)%nat ->
            Vec3 (nth i (map x0 markers) 0) (nth i (map x1 markers) 0)
                 (nth i (map x2 markers) 0)
            = nth i markers (Vec3 0 0 0)).
  { intros i Hi.
    rewrite (nth_map_in_range x0 markers i 0 (Vec3 0 0 0)),
      (nth_map_in_range x1 markers i 0 (Vec3 0 0 0)),
      (nth_map_in_range x2 markers i 0 (Vec3 0 0 0)) by exact Hi.
    destruct (nth i markers (Vec3 0 0 0)). reflexivity. }
  split.
  - rewrite (Hpt 0%nat) by lia. cbv zeta. rewrite nth_linspace by lia.
    replace (nth 0 (map x2 markers) 0 +
             INR 0 * ((nth (List.length markers - 1) (map x2 markers) 0
                       - nth 0 (map x2 markers) 0) / INR (40 - 1)))
      with (nth 0 (map x2 markers) 0) by (cbn [INR]; ring).
    destruct (Hknots 0%nat ltac:(lia)) as (-> & ->). apply Hcoord. lia.
  - rewrite (Hpt 39%nat) by lia. cbv zeta. rewrite nth_linspace by lia.
    replace (nth 0 (map x2 markers) 0 +
             INR 39 * ((nth (List.length markers - 1) (map x2 markers) 0
                        - nth 0 (map x2 markers) 0) / INR (40 - 1)))
      with (nth (List.length markers - 1) (map x2 markers) 0).
    + destruct (Hknots (List.length markers - 1)%nat ltac:(lia)) as (-> & ->).
      apply Hcoord. lia.
    + change (40 - 1)%nat with 39%nat.
      replace (INR 39) with 39 by (rewrite INR_IZR_INZ; reflexivity). field.
Qed.

End CurveEnds.

(** The X19 statement for the two example markers and the line through
    them. *)
Lemma urethra_curve_ends_at_markers_witness :
  ((2 <= List.length markers_example)%nat
   /\ strictly_increasing (map x2 markers_example))
  /\ exists curve,
       urethra_curve line_through markers_example = Ok curve
       /\ nth 0 curve (Vec3 0 0 0) = Vec3 1 2 0
       /\ nth 39 curve (Vec3 0 0 0) = Vec3 3 4 39.
Proof.
  split; [split; [cbn; lia|exact markers_example_increasing]|].
  apply (urethra_curve_ends_at_markers line_through markers_example).
  - cbn. lia.
  - exact markers_example_increasing.
  - intros [|[|i]] Hi; cbn in Hi; try lia; unfold line_through; cbn; split; field.
Defined.
